(** * NYC Airbnb dashboard: the filter, value-score and landmark pipeline

    A shallow embedding of the analytical core of [NY_AIRBnB.py]:

    - the boolean-mask filter that builds [filtered_df] (lines 56-59),
    - the derived column [value_score] (lines 205-206),
    - the landmark buffer queries [central_park_listings] and
      [sol_listings] (lines 139-155).

    The script is a straight-line pandas program.  float64 cells are
    IEEE-754 binary64 values, modelled by Rocq's primitive floats, whose
    operations are the hardware ones; a missing cell is NaN, as in a
    DataFrame read by [pd.read_csv]; int64 cells are integers with
    wrap-around.  Columns are lists, one cell per row. *)

From Stdlib Require Import Floats ZArith List Bool String Lia.
Import ListNotations.

#[local] Set Warnings "-inexact-float".
#[local] Open Scope float_scope.

(** ** Python outcomes

    An expression of the script either evaluates or raises.  The
    exceptions the filter and the spatial queries can meet are pandas'
    [IndexingError], raised by [frame[mask]] when the mask does not have one
    entry per row, shapely's [ValueError], raised by [buffer] for a
    distance that is not finite, and [AttributeError], raised when a frame
    without geometry column is asked for [within]. *)

Inductive PyError : Type :=
| IndexingError
| ValueError
| AttributeError.

Inductive PyResult (A : Type) : Type :=
| Ok (value : A)
| Raise (e : PyError).

Arguments Ok {A} value.
Arguments Raise {A} e.

(** ** The pandas operations the script calls *)

Module Pandas.

Definition Series (A : Type) : Type := list A.

(** [s >= v] and [s <= v] against a scalar: cell by cell, IEEE comparison
    (false on NaN). *)
Definition ge (s : Series float) (v : float) : Series bool :=
  map (fun x => v <=? x) s.

Definition le (s : Series float) (v : float) : Series bool :=
  map (fun x => x <=? v) s.

(** [m1 & m2] on two masks over the same index. *)
Definition and_ (m1 m2 : Series bool) : Series bool :=
  map (fun ab => fst ab && snd ab) (combine m1 m2).

(** [Series.between(left, right)], default [inclusive="both"]:
    [lmask = self >= left; rmask = self <= right; return lmask & rmask]. *)
Definition between (s : Series float) (left right : float) : Series bool :=
  and_ (ge s left) (le s right).

(** [Series.isin(values)]: exact-match membership of each cell. *)
Definition isin (s : Series string) (values : list string) : Series bool :=
  map (fun x => existsb (String.eqb x) values) s.

(** [frame[mask]]: the rows whose mask entry is [True], in frame order. *)
Fixpoint getitem_mask {A : Type} (rows : list A) (mask : Series bool)
  : PyResult (list A) :=
  match rows, mask with
  | [], [] => Ok []
  | r :: rows', b :: mask' =>
      match getitem_mask rows' mask' with
      | Ok kept => Ok (if b then r :: kept else kept)
      | Raise e => Raise e
      end
  | _, _ => Raise IndexingError
  end.

(** A numeric cell.  [read_csv] gives a column without missing cell and
    without decimal point the dtype int64, and any other numeric column the
    dtype float64; all the cells of a column have the dtype of the column,
    and the operations below act on a column cell by cell. *)
Inductive Num : Type :=
| Int64 (z : Z)
| Float64 (x : float).

(** Two's complement wrap-around of int64 arithmetic. *)
Definition wrap64 (z : Z) : Z :=
  ((z + 9223372036854775808) mod 18446744073709551616 - 9223372036854775808)%Z.

(** The cast of an int64 to float64: the nearest binary64 number, ties to
    even. *)
Definition of_int64 (z : Z) : float :=
  SF2Prim (binary_normalize prec emax z 0 false).

Definition to_float64 (n : Num) : float :=
  match n with
  | Int64 z => of_int64 z
  | Float64 x => x
  end.

(** A missing cell: NaN, which only a float64 column can hold. *)
Definition isna (n : Num) : bool :=
  match n with
  | Int64 _ => false
  | Float64 x => is_nan x
  end.

(** [*] on two cells: int64 times int64 is an int64 product, which wraps;
    with a float64 operand both are taken as float64. *)
Definition mul_cell (a b : Num) : Num :=
  match a, b with
  | Int64 x, Int64 y => Int64 (wrap64 (x * y))
  | _, _ => Float64 (to_float64 a * to_float64 b)
  end.

(** [s1 * s2] on two numeric columns over the same index. *)
Definition mul (s1 s2 : Series Num) : Series Num :=
  map (fun ab => mul_cell (fst ab) (snd ab)) (combine s1 s2).

(** [s1 / s2]: true division, in float64 whatever the dtypes.  The divisor
    is a column of float64 values. *)
Definition truediv (s1 : Series Num) (s2 : Series float) : Series float :=
  map (fun ab => to_float64 (fst ab) / snd ab) (combine s1 s2).

End Pandas.

(** ** The listing table *)

(** One row of the dataset, with the columns the script reads.  The
    coordinates and the price are held as float64 values (the cells of an
    integer price column, below 2^53 in magnitude and so exactly
    representable, compare with the slider bounds and divide as their
    float64 values do); the two columns that are multiplied keep their
    dtype, since the product of two int64 columns is taken in int64. *)
Record Listing : Type := mkListing {
  name : string;
  latitude : float;
  longitude : float;
  price : float;
  neighbourhood : string;
  neighbourhood_group : string;
  number_of_reviews : Pandas.Num;
  review_scores_rating : Pandas.Num
}.

Definition DataFrame : Type := list Listing.

(** ** Data filtering (lines 56-59)

    [df[(df.price.between(price_range[0], price_range[1])) &
        (df.neighbourhood_group.isin(borough_filter))]] *)

Definition filter_mask (df : DataFrame) (price_range : float * float)
    (borough_filter : list string) : Pandas.Series bool :=
  Pandas.and_
    (Pandas.between (map price df) (fst price_range) (snd price_range))
    (Pandas.isin (map neighbourhood_group df) borough_filter).

Definition filtered_df (df : DataFrame) (price_range : float * float)
    (borough_filter : list string) : PyResult DataFrame :=
  Pandas.getitem_mask df (filter_mask df price_range borough_filter).

(** The row predicate of the specification's [filter]: price within the
    inclusive bounds and borough among the selected ones. *)
Definition in_price_range (price_min price_max : float) (l : Listing) : bool :=
  (price_min <=? price l) && (price l <=? price_max).

Definition in_boroughs (boroughs : list string) (l : Listing) : bool :=
  existsb (String.eqb (neighbourhood_group l)) boroughs.

Definition keep (price_min price_max : float) (boroughs : list string)
    (l : Listing) : bool :=
  in_price_range price_min price_max l && in_boroughs boroughs l.

(** ** Value score (lines 205-206)

    [filtered_df['number_of_reviews'] * filtered_df['review_scores_rating']
       / filtered_df['price']], assigned as the new column [value_score]. *)

Definition value_score (fdf : DataFrame) : Pandas.Series float :=
  Pandas.truediv
    (Pandas.mul (map number_of_reviews fdf) (map review_scores_rating fdf))
    (map price fdf).

(** [filtered_df] after the assignment: every row with its score. *)
Definition with_value_score (fdf : DataFrame) : list (Listing * float) :=
  combine fdf (value_score fdf).

(** The product of one row, [number_of_reviews * review_scores_rating], as
    the float64 that [/] divides. *)
Definition score_numerator (l : Listing) : float :=
  Pandas.to_float64
    (Pandas.mul_cell (number_of_reviews l) (review_scores_rating l)).

(** The score of one row, as the column operations compute it: the
    specification's per-listing [computeValueScore]. *)
Definition computeValueScore (l : Listing) : float :=
  score_numerator l / price l.


(** Selection: the first list is obtained from the second by deleting
    exactly the rows on which [P] is false, the others staying in place. *)
Inductive Selection {A : Type} (P : A -> bool) : list A -> list A -> Prop :=
| Selection_nil : Selection P [] []
| Selection_drop (x : A) (out l : list A) :
    P x = false -> Selection P out l -> Selection P out (x :: l)
| Selection_keep (x : A) (out l : list A) :
    P x = true -> Selection P out l -> Selection P (x :: out) (x :: l).

(** Subsequence: the first list is obtained from the second by deleting
    rows, keeping the others in place. *)
Inductive Subseq {A : Type} : list A -> list A -> Prop :=
| Subseq_nil : Subseq [] []
| Subseq_drop (x : A) (l1 l2 : list A) : Subseq l1 l2 -> Subseq l1 (x :: l2)
| Subseq_keep (x : A) (l1 l2 : list A) : Subseq l1 l2 -> Subseq (x :: l1) (x :: l2).

(** ** The geometry library calls of the landmark tab (lines 134-155)

    [Point(xy)], [geom.buffer(0.02)] and [gdf.within(buffer)] are shapely
    calls that GEOS carries out.  The model follows GEOS: the buffer of a
    point is the polygon its round-cap circle construction emits, and
    [within] is point location by ray crossing with an exact orientation
    test. *)

Module Geos.

(** A coordinate is [(x, y)] = (longitude, latitude). *)
Definition Coordinate : Type := (float * float)%type.

(** A closed ring: the last coordinate repeats the first. *)
Definition Ring : Type := list Coordinate.

Record Polygon : Type := mkPolygon {
  shell : Ring;
  holes : list Ring
}.

Inductive Location : Type :=
| INTERIOR
| BOUNDARY
| EXTERIOR.

(** The exact value of a finite binary64 number, scaled by 2^1074 so that
    it is an integer (the least binary64 exponent is -1074). *)
Definition scaled (f : float) : Z :=
  match Prim2SF f with
  | S754_finite s m e =>
      let v := Z.shiftl (Zpos m) (e + 1074) in
      if s then (- v)%Z else v
  | _ => 0%Z
  end.

(** [Orientation::index(p1, p2, q)]: 1 when [q] is to the left of the
    directed line [p1 -> p2] (counter-clockwise), -1 when to the right, 0
    when collinear; GEOS evaluates the sign of the determinant robustly,
    here it is computed exactly. *)
Definition orientation_index (p1 p2 q : Coordinate) : Z :=
  let dx1 := (scaled (fst p2) - scaled (fst p1))%Z in
  let dy1 := (scaled (snd p2) - scaled (snd p1))%Z in
  let dx2 := (scaled (fst q) - scaled (fst p2))%Z in
  let dy2 := (scaled (snd q) - scaled (snd p2))%Z in
  Z.sgn (dx1 * dy2 - dy1 * dx2).

(** [RayCrossingCounter]: crossings of the horizontal ray that leaves the
    test point towards positive x, and whether the point was met on a
    segment. *)
Record RayCrossingCounter : Type := mkCounter {
  crossingCount : nat;
  isPointOnSegment : bool
}.

Definition on_segment (c : RayCrossingCounter) : RayCrossingCounter :=
  mkCounter (crossingCount c) true.

Definition countSegment (p p1 p2 : Coordinate) (c : RayCrossingCounter)
  : RayCrossingCounter :=
  let '(px, py) := p in
  let '(x1, y1) := p1 in
  let '(x2, y2) := p2 in
  (* the segment is strictly to the left of the test point *)
  if (x1 <? px) && (x2 <? px) then c
  (* the point is the current ring vertex *)
  else if (px =? x2) && (py =? y2) then on_segment c
  (* horizontal segments count only when the point is on them *)
  else if (y1 =? py) && (y2 =? py) then
    let minx := if x2 <? x1 then x2 else x1 in
    let maxx := if x2 <? x1 then x1 else x2 in
    if (minx <=? px) && (px <=? maxx) then on_segment c else c
  (* a segment that crosses the ray's line *)
  else if ((py <? y1) && (y2 <=? py)) || ((py <? y2) && (y1 <=? py)) then
    let orient := orientation_index p1 p2 p in
    if (orient =? 0)%Z then on_segment c
    else
      let orient := if y2 <? y1 then (- orient)%Z else orient in
      if (orient =? 1)%Z
      then mkCounter (S (crossingCount c)) (isPointOnSegment c)
      else c
  else c.

(** [locatePointInRing]: segment [i] is counted from [ring[i]] to
    [ring[i-1]]. *)
Fixpoint countRing (p : Coordinate) (ring : Ring) (c : RayCrossingCounter)
  : RayCrossingCounter :=
  match ring with
  | prev :: (cur :: _) as rest => countRing p rest (countSegment p cur prev c)
  | _ => c
  end.

Definition getLocation (c : RayCrossingCounter) : Location :=
  if isPointOnSegment c then BOUNDARY
  else if Nat.odd (crossingCount c) then INTERIOR
  else EXTERIOR.

Definition locatePointInRing (p : Coordinate) (ring : Ring) : Location :=
  getLocation (countRing p ring (mkCounter 0 false)).

(** [locatePointInPolygon]: inside the shell and in no hole. *)
Fixpoint locateInHoles (p : Coordinate) (hs : list Ring) : Location :=
  match hs with
  | [] => INTERIOR
  | h :: hs' =>
      match locatePointInRing p h with
      | BOUNDARY => BOUNDARY
      | INTERIOR => EXTERIOR
      | EXTERIOR => locateInHoles p hs'
      end
  end.

Definition locatePointInPolygon (p : Coordinate) (poly : Polygon) : Location :=
  match locatePointInRing p (shell poly) with
  | EXTERIOR => EXTERIOR
  | BOUNDARY => BOUNDARY
  | INTERIOR => locateInHoles p (holes poly)
  end.

Definition is_finite_coordinate (p : Coordinate) : bool :=
  is_finite (fst p) && is_finite (snd p).

(** [point.within(polygon)]: the point is in the interior of the polygon;
    a point on the boundary is not within. *)
Definition within (p : Coordinate) (poly : Polygon) : bool :=
  is_finite_coordinate p &&
  match locatePointInPolygon p poly with
  | INTERIOR => true
  | _ => false
  end.

(** The cosines and sines that the C library returns for the angles of a
    full circle at the default 16 segments per quadrant: [(cos a_i, sin a_i)]
    with [a_i = 0 + (-1) * i * (2 pi / 64)] for [i = 0 .. 63], in binary64
    (the circle is walked clockwise from angle 0). *)
Definition libm_cos_sin : list (float * float) :=
  [
    (1.0, 0.0); (0.9951847266721969, (-0.0980171403295606));
    (0.9807852804032304, (-0.19509032201612825)); (0.9569403357322088, (-0.29028467725446233));
    (0.9238795325112867, (-0.3826834323650898)); (0.881921264348355, (-0.47139673682599764));
    (0.8314696123025452, (-0.5555702330196022)); (0.773010453362737, (-0.6343932841636455));
    (0.7071067811865476, (-0.7071067811865475)); (0.6343932841636455, (-0.773010453362737));
    (0.5555702330196023, (-0.8314696123025452)); (0.4713967368259978, (-0.8819212643483549));
    (0.38268343236508984, (-0.9238795325112867)); (0.29028467725446233, (-0.9569403357322089));
    (0.19509032201612833, (-0.9807852804032304)); (0.09801714032956077, (-0.9951847266721968));
    (6.123233995736766e-17, (-1.0)); ((-0.09801714032956065), (-0.9951847266721969));
    ((-0.1950903220161282), (-0.9807852804032304)); ((-0.29028467725446216), (-0.9569403357322089));
    ((-0.3826834323650897), (-0.9238795325112867)); ((-0.4713967368259977), (-0.881921264348355));
    ((-0.555570233019602), (-0.8314696123025455)); ((-0.6343932841636454), (-0.7730104533627371));
    ((-0.7071067811865475), (-0.7071067811865476)); ((-0.773010453362737), (-0.6343932841636455));
    ((-0.8314696123025453), (-0.5555702330196022)); ((-0.8819212643483549), (-0.47139673682599786));
    ((-0.9238795325112867), (-0.3826834323650899)); ((-0.9569403357322088), (-0.2902846772544624));
    ((-0.9807852804032304), (-0.1950903220161286)); ((-0.9951847266721968), (-0.09801714032956083));
    ((-1.0), (-1.2246467991473532e-16)); ((-0.9951847266721969), 0.09801714032956059);
    ((-0.9807852804032304), 0.19509032201612836); ((-0.9569403357322089), 0.2902846772544621);
    ((-0.9238795325112868), 0.38268343236508967); ((-0.881921264348355), 0.47139673682599764);
    ((-0.8314696123025455), 0.555570233019602); ((-0.7730104533627371), 0.6343932841636453);
    ((-0.7071067811865477), 0.7071067811865475); ((-0.6343932841636459), 0.7730104533627367);
    ((-0.5555702330196022), 0.8314696123025452); ((-0.47139673682599786), 0.8819212643483549);
    ((-0.38268343236509034), 0.9238795325112865); ((-0.29028467725446244), 0.9569403357322088);
    ((-0.19509032201612866), 0.9807852804032303); ((-0.09801714032956045), 0.9951847266721969);
    ((-1.8369701987210297e-16), 1.0); (0.09801714032956009, 0.9951847266721969);
    (0.1950903220161283, 0.9807852804032304); (0.29028467725446205, 0.9569403357322089);
    (0.38268343236509, 0.9238795325112866); (0.4713967368259976, 0.881921264348355);
    (0.5555702330196018, 0.8314696123025455); (0.6343932841636456, 0.7730104533627369);
    (0.7071067811865474, 0.7071067811865477); (0.7730104533627367, 0.6343932841636459);
    (0.8314696123025452, 0.5555702330196022); (0.8819212643483548, 0.4713967368259979);
    (0.9238795325112865, 0.3826834323650904); (0.9569403357322088, 0.2902846772544625);
    (0.9807852804032303, 0.19509032201612872); (0.9951847266721969, 0.0980171403295605)
  ].

(** [Angle::sinCosSnap]: values closer to zero than 5e-16 are snapped to
    zero, so that the vertices at the axis angles lie on the axes. *)
Definition snap (v : float) : float :=
  if abs v <? 5e-16 then 0 else v.

Definition circle_cos_sin : list (float * float) :=
  map (fun cs => (snap (fst cs), snap (snd cs))) libm_cos_sin.

(** [OffsetSegmentGenerator::createCircle] and [addDirectedFillet]: the
    ring [(x + d cos a_i, y + d sin a_i)], closed on its first vertex
    [(x + d, y)]. *)
Definition createCircle (p : Coordinate) (distance : float) : Ring :=
  let vertex (cs : float * float) : Coordinate :=
    (fst p + distance * fst cs, snd p + distance * snd cs) in
  map vertex circle_cos_sin ++ [vertex (1, 0)].

(** [Point.buffer(distance)]: shapely refuses a distance that is not
    finite; GEOS returns the circle polygon for a positive distance and the
    empty polygon otherwise. *)
Definition circle_polygon (p : Coordinate) (distance : float) : Polygon :=
  if 0 <? distance
  then mkPolygon (createCircle p distance) []
  else mkPolygon [] [].

Definition buffer_point (p : Coordinate) (distance : float) : PyResult Polygon :=
  if is_finite distance then Ok (circle_polygon p distance)
  else Raise ValueError.

End Geos.

(** ** Landmark buffer analysis (lines 134-155) *)

(** [geometry = [Point(xy) for xy in zip(filtered_df.longitude,
    filtered_df.latitude)]] *)
Definition geometry (fdf : DataFrame) : list Geos.Coordinate :=
  combine (map longitude fdf) (map latitude fdf).

(** [gdf = gpd.GeoDataFrame(filtered_df, geometry=geometry, ...)]: the rows
    of [filtered_df], each with its point. *)
Definition GeoDataFrame : Type := list (Listing * Geos.Coordinate).

Definition gdf (fdf : DataFrame) : GeoDataFrame :=
  combine fdf (geometry fdf).

(** The point of a listing, as [zip] pairs it. *)
Definition point_of (l : Listing) : Geos.Coordinate := (longitude l, latitude l).

(** [gdf.within(region)]: one boolean per row. *)
Definition within_series (g : GeoDataFrame) (region : Geos.Polygon)
  : Pandas.Series bool :=
  map (fun r => Geos.within (snd r) region) g.

(** [gdf[gdf.within(region)]] *)
Definition spatial_query (g : GeoDataFrame) (region : Geos.Polygon)
  : PyResult GeoDataFrame :=
  Pandas.getitem_mask g (within_series g region).

(** The landmarks of the script. *)
Definition statue_of_liberty : Geos.Coordinate := (-74.0445, 40.6892).

Definition central_park : Geos.Ring :=
  [ (-73.9730, 40.7642); (-73.9587, 40.8005); (-73.9814, 40.7969);
    (-73.9492, 40.7642); (-73.9730, 40.7642) ].

Definition buffer_distance : float := 0.02.

(** [buffers["Statue of Liberty"]], then
    [sol_listings = gdf[gdf.within(buffers["Statue of Liberty"])]] *)
Definition sol_listings (g : GeoDataFrame) : PyResult GeoDataFrame :=
  match Geos.buffer_point statue_of_liberty buffer_distance with
  | Ok region => spatial_query g region
  | Raise e => Raise e
  end.

(** The specification's [membershipQuery] for a point landmark: the query of
    the script with the landmark and the distance as arguments. *)
Definition membershipQuery (listings : DataFrame) (landmark : Geos.Coordinate)
    (bufferDistance : float) : PyResult GeoDataFrame :=
  match Geos.buffer_point landmark bufferDistance with
  | Ok region => spatial_query (gdf listings) region
  | Raise e => Raise e
  end.

Section CentralPark.

(** The buffer of a polygon (GEOS' offset curve with round joins) is not
    modelled: the query is stated for whichever region it returns. *)
Variable buffer_polygon : Geos.Ring -> float -> Geos.Polygon.

(** [central_park_listings = gdf[gdf.within(buffers["Central Park"])]] *)
Definition central_park_listings (g : GeoDataFrame) : PyResult GeoDataFrame :=
  spatial_query g (buffer_polygon central_park buffer_distance).

End CentralPark.



(** ** Sample rows *)

Definition listing_at (nm : string) (lon lat : float) : Listing :=
  mkListing nm lat lon 120 "Battery Park City" "Manhattan"
    (Pandas.Int64 12) (Pandas.Float64 4.5).

Definition near_liberty : Listing := listing_at "near" (-74.0440) 40.6895.

Definition sample_table : DataFrame :=
  [ mkListing "Loft" 40.7212 (-73.9570) 50 "Williamsburg" "Brooklyn"
      (Pandas.Int64 10) (Pandas.Float64 4.5);
    mkListing "Studio" 40.7644 (-73.9712) 300 "Midtown" "Manhattan"
      (Pandas.Int64 3) (Pandas.Float64 4.0);
    mkListing "Unpriced" 40.7100 (-73.9900) nan "Chinatown" "Manhattan"
      (Pandas.Int64 7) (Pandas.Float64 5);
    mkListing "Room" 40.7420 (-73.9190) 49 "Sunnyside" "Queens"
      (Pandas.Int64 25) (Pandas.Float64 4.8);
    mkListing "Suite" 40.7580 (-73.9850) 301 "Midtown" "Manhattan"
      (Pandas.Int64 1) (Pandas.Float64 3.5) ].

(** The specification's examples for the value score. *)
Definition value_example : Listing :=
  mkListing "example" 40.7 (-74.0) 90 "Midtown" "Manhattan"
    (Pandas.Int64 10) (Pandas.Float64 4.5).

Definition free_with_reviews : Listing :=
  mkListing "free" 40.7 (-74.0) 0 "Midtown" "Manhattan"
    (Pandas.Int64 5) (Pandas.Int64 5).

Definition free_without_reviews : Listing :=
  mkListing "free, new" 40.7 (-74.0) 0 "Midtown" "Manhattan"
    (Pandas.Int64 0) (Pandas.Int64 5).

(** The buffer ring of the Statue of Liberty, as computed. *)
Definition liberty_ring : Geos.Ring :=
  Geos.createCircle statue_of_liberty buffer_distance.


(** A listing nobody has rated yet. *)
Definition unrated : Listing :=
  mkListing "unrated" 40.73 (-73.99) 120 "East Village" "Manhattan"
    (Pandas.Int64 0) (Pandas.Float64 nan).

(** ** Sidebar options (lines 49-53)

    [df.neighbourhood_group.unique()]: the values of the column in order of
    first appearance, each once.  It is both the list of options and the
    default selection of the borough multiselect. *)

Fixpoint unique_from (seen : list string) (s : Pandas.Series string)
  : list string :=
  match s with
  | [] => []
  | x :: s' =>
      if existsb (String.eqb x) seen then unique_from seen s'
      else x :: unique_from (x :: seen) s'
  end.

Definition unique (s : Pandas.Series string) : list string :=
  unique_from [] s.

Definition borough_options (df : DataFrame) : list string :=
  unique (map neighbourhood_group df).

(** ** Map tab (lines 79-94) *)



Section Markers.

(** Python's formatting of a float inside an f-string. *)
Variable format_float : float -> string.



End Markers.

(** [filtered_df[['latitude', 'longitude', 'price']].values] and, for the
    value heat map, [filtered_df[['latitude', 'longitude',
    'value_score']].values]. *)
Definition heat_data (fdf : DataFrame) : list (float * float * float) :=
  map (fun l => (latitude l, longitude l, price l)) fdf.

Definition value_heat_data (fdf : DataFrame) : list (float * float * float) :=
  map (fun lv => (latitude (fst lv), longitude (fst lv), snd lv))
      (with_value_score fdf).

(** ** Landmark tab: what is displayed (lines 158-168) *)

(** [len(sol_listings)] and [sol_listings[['name', 'price',
    'neighbourhood']]]. *)
Definition listings_in_area (hits : GeoDataFrame) : nat := List.length hits.

Definition area_table (hits : GeoDataFrame) : list (string * float * string) :=
  map (fun r => (name (fst r), price (fst r), neighbourhood (fst r))) hits.

(** Two segments cross properly: the ends of each lie strictly on opposite
    sides of the other. *)
Definition segments_cross (a b c d : Geos.Coordinate) : bool :=
  (Geos.orientation_index a b c * Geos.orientation_index a b d =? -1)%Z
  && (Geos.orientation_index c d a * Geos.orientation_index c d b =? -1)%Z.

(** ** Transit tab: the subway lines (lines 173-180)

    [subway_routes] is what [requests.get(...).json()] returns: a Python
    value built from JSON.  The loop subscripts and iterates it without any
    check, so every Python value is modelled, with the exceptions that
    subscripting and iterating raise. *)

Module Subway.

#[local] Set Warnings "-register-all".

(** Text is modelled as ASCII strings. *)
Inductive Json : Type :=
| JNull
| JBool (b : bool)
| JNum (x : float)
| JStr (s : string)
| JArr (items : list Json)
| JObj (members : list (string * Json)).

Inductive PyExn : Type :=
| KeyError
| IndexError
| TypeError.

Inductive Outcome (A : Type) : Type :=
| Returns (value : A)
| Raises (e : PyExn).

Arguments Returns {A} value.
Arguments Raises {A} e.

Definition bind {A B : Type} (m : Outcome A) (k : A -> Outcome B) : Outcome B :=
  match m with
  | Returns a => k a
  | Raises e => Raises e
  end.

Notation "x <- m ;; k" := (bind m (fun x => k))
  (at level 61, m at next level, right associativity).

Fixpoint mapM {A B : Type} (f : A -> Outcome B) (l : list A) : Outcome (list B) :=
  match l with
  | [] => Returns []
  | a :: l' => b <- f a ;; bs <- mapM f l' ;; Returns (b :: bs)
  end.

Fixpoint foldM {A B : Type} (f : B -> A -> Outcome B) (l : list A) (acc : B)
  : Outcome B :=
  match l with
  | [] => Returns acc
  | a :: l' => acc' <- f acc a ;; foldM f l' acc'
  end.

(** The value a dict built by [json.loads] holds for a key: of several
    members with the same name, the last one. *)
Fixpoint lookup (k : string) (members : list (string * Json)) : option Json :=
  match members with
  | [] => None
  | (k', v) :: rest =>
      match lookup k rest with
      | Some v' => Some v'
      | None => if String.eqb k k' then Some v else None
      end
  end.

(** [v[k]] with a string [k]. *)
Definition getitem_key (v : Json) (k : string) : Outcome Json :=
  match v with
  | JObj members =>
      match lookup k members with
      | Some x => Returns x
      | None => Raises KeyError
      end
  | _ => Raises TypeError
  end.

(** [v[i]] with a non-negative integer [i]. *)
Definition getitem_index (v : Json) (i : nat) : Outcome Json :=
  match v with
  | JArr items =>
      match nth_error items i with
      | Some x => Returns x
      | None => Raises IndexError
      end
  | JStr s =>
      match String.get i s with
      | Some c => Returns (JStr (String c EmptyString))
      | None => Raises IndexError
      end
  | JObj _ => Raises KeyError
  | _ => Raises TypeError
  end.

(** [for x in v]: the items of a list, the keys of a dict, the characters
    of a string. *)
Definition iter (v : Json) : Outcome (list Json) :=
  match v with
  | JArr items => Returns items
  | JObj members => Returns (map JStr (unique (map fst members)))
  | JStr s =>
      Returns (map (fun c => JStr (String c EmptyString)) (list_ascii_of_string s))
  | _ => Raises TypeError
  end.

(** [v == 'LineString'] *)
Definition is_LineString (v : Json) : bool :=
  match v with
  | JStr s => String.eqb s "LineString"
  | _ => false
  end.

(** One entry of [subway_lines]: [{'xs': ..., 'ys': ...}]. *)
Record Line : Type := mkLine {
  xs : list Json;
  ys : list Json
}.

(** [{'xs': [c[0] for c in coords], 'ys': [c[1] for c in coords]}] *)
Definition line_of (coords : Json) : Outcome Line :=
  cs <- iter coords ;;
  xs <- mapM (fun c => getitem_index c 0) cs ;;
  cs' <- iter coords ;;
  ys <- mapM (fun c => getitem_index c 1) cs' ;;
  Returns (mkLine xs ys).

(** The body of [for feature in subway_routes['features']]. *)
Definition visit (subway_lines : list Line) (feature : Json)
  : Outcome (list Line) :=
  g <- getitem_key feature "geometry" ;;
  t <- getitem_key g "type" ;;
  if is_LineString t then
    g' <- getitem_key feature "geometry" ;;
    coords <- getitem_key g' "coordinates" ;;
    line <- line_of coords ;;
    Returns (subway_lines ++ [line])
  else Returns subway_lines.

Definition subway_lines (subway_routes : Json) : Outcome (list Line) :=
  fs <- getitem_key subway_routes "features" ;;
  features <- iter fs ;;
  foldM visit features [].

(** GeoJSON, as RFC 7946 lays it out: a feature collection whose features
    carry a geometry object with a type and coordinates; a position is an
    array of numbers, longitude first. *)
Record Feature : Type := mkFeature {
  geometry_type : string;
  positions : list (list float);
  properties : list (string * Json)
}.

Definition encode_position (p : list float) : Json := JArr (map JNum p).

Definition encode_feature (f : Feature) : Json :=
  JObj [ ("type", JStr "Feature");
         ("properties", JObj (properties f));
         ("geometry",
           JObj [ ("type", JStr (geometry_type f));
                  ("coordinates", JArr (map encode_position (positions f))) ]) ]%string.

Definition feature_collection (features : list Json) : Json :=
  JObj [ ("type", JStr "FeatureCollection"); ("features", JArr features) ]%string.

(** A feature without location: RFC 7946 gives it the geometry [null]. *)
Definition unlocated_feature : Json :=
  JObj [ ("type", JStr "Feature"); ("properties", JObj []);
         ("geometry", JNull) ]%string.

Definition is_line_string (f : Feature) : bool :=
  String.eqb (geometry_type f) "LineString".

(** Every position of a LineString has at least two numbers. *)
Definition well_formed (f : Feature) : Prop :=
  is_line_string f = true ->
  Forall (fun p => (2 <= List.length p)%nat) (positions f).

(** The line a decoded LineString should give: first and second number of
    every position. *)
Definition expected_line (f : Feature) : Line :=
  mkLine (map (fun p => JNum (nth 0 p 0)) (positions f))
         (map (fun p => JNum (nth 1 p 0)) (positions f)).

End Subway.

(** Sample features. *)
Definition broadway_line : Subway.Feature :=
  Subway.mkFeature "LineString"
    [ [-73.9857; 40.7484]; [-73.9819; 40.7527; 12.5]; [-73.9772; 40.7587] ]
    [ ("name", Subway.JStr "N") ]%string.

Definition times_square_stop : Subway.Feature :=
  Subway.mkFeature "Point" [ [-73.9855; 40.7580] ] [].

Definition shuttle_tracks : Subway.Feature :=
  Subway.mkFeature "MultiLineString" [] [ ("name", Subway.JStr "S") ]%string.

Definition stub_line : Subway.Feature :=
  Subway.mkFeature "LineString" [ [-73.99; 40.75]; [-73.98] ] [].

(** ** The shape of the buffer ring

    A table of cosines and sines describes a regular polygon walked
    clockwise when its points lie on the unit circle and each step to the
    next point (the last stepping back to the first) turns by the angle
    whose cosine is 0.99518 and whose sine is -0.09802, that is by -2 pi / 64. *)





(** ** The statements of the script over Python objects

    The frames of the script are objects: [df[mask]] and
    [GeoDataFrame(...)] make a new object, [frame['value_score'] = ...]
    changes the object it is applied to.  A store holds the objects by
    address; a statement reads and writes the store. *)

Module Runtime.

(** A frame object: its rows, and the columns that the script adds. *)
Record Frame : Type := mkFrame {
  rows : DataFrame;
  geometry_column : option (list Geos.Coordinate);
  value_score_column : option (Pandas.Series float)
}.

Definition Ref : Type := nat.
Definition Store : Type := list Frame.

Definition Py (A : Type) : Type := Store -> PyResult (A * Store).

Definition ret {A : Type} (a : A) : Py A := fun st => Ok (a, st).

Definition bind {A B : Type} (m : Py A) (k : A -> Py B) : Py B :=
  fun st =>
    match m st with
    | Ok (a, st') => k a st'
    | Raise e => Raise e
    end.

Definition raise {A : Type} (e : PyError) : Py A := fun _ => Raise e.

Definition lift {A : Type} (r : PyResult A) : Py A :=
  fun st =>
    match r with
    | Ok a => Ok (a, st)
    | Raise e => Raise e
    end.

Notation "x <- m ;; k" := (bind m (fun x => k))
  (at level 61, m at next level, right associativity).

(** The value of a computation, without the store it leaves. *)
Definition outcome {A : Type} (m : Py A) (st : Store) : PyResult A :=
  match m st with
  | Ok (a, _) => Ok a
  | Raise e => Raise e
  end.

Definition empty_frame : Frame := mkFrame [] None None.

(** A new object, at the first free address. *)
Definition new (f : Frame) : Py Ref :=
  fun st => Ok (List.length st, st ++ [f]).

(** The object a reference designates. *)
Definition get (r : Ref) : Py Frame :=
  fun st => Ok (nth r st empty_frame, st).

Fixpoint replace (r : Ref) (f : Frame) (st : Store) : Store :=
  match st, r with
  | [], _ => []
  | _ :: st', O => f :: st'
  | g :: st', S r' => g :: replace r' f st'
  end.

(** In-place change of an object. *)
Definition put (r : Ref) (f : Frame) : Py unit :=
  fun st => Ok (tt, replace r f st).

(** [frame[mask]] on every column of the frame. *)
Definition getitem_column {A : Type} (c : option (list A))
    (mask : Pandas.Series bool) : PyResult (option (list A)) :=
  match c with
  | None => Ok None
  | Some cells =>
      match Pandas.getitem_mask cells mask with
      | Ok kept => Ok (Some kept)
      | Raise e => Raise e
      end
  end.

Definition getitem_frame (f : Frame) (mask : Pandas.Series bool)
  : PyResult Frame :=
  match Pandas.getitem_mask (rows f) mask with
  | Raise e => Raise e
  | Ok kept =>
      match getitem_column (geometry_column f) mask with
      | Raise e => Raise e
      | Ok geometry' =>
          match getitem_column (value_score_column f) mask with
          | Raise e => Raise e
          | Ok scores' => Ok (mkFrame kept geometry' scores')
          end
      end
  end.

(** Lines 56-59: [filtered_df = df[... & ...]]. *)
Definition stmt_filter (df : Ref) (price_range : float * float)
    (borough_filter : list string) : Py Ref :=
  f <- get df ;;
  kept <- lift (getitem_frame f (filter_mask (rows f) price_range borough_filter)) ;;
  new kept.

(** Lines 134-136: [gdf = gpd.GeoDataFrame(filtered_df, geometry=geometry)]. *)
Definition stmt_gdf (fdf : Ref) : Py Ref :=
  f <- get fdf ;;
  new (mkFrame (rows f) (Some (geometry (rows f))) (value_score_column f)).

(** Lines 154-155: [gdf[gdf.within(region)]]. *)
Definition stmt_within (g : Ref) (region : Geos.Polygon) : Py Ref :=
  f <- get g ;;
  match geometry_column f with
  | None => raise AttributeError
  | Some points =>
      kept <- lift (getitem_frame f (map (fun p => Geos.within p region) points)) ;;
      new kept
  end.

(** Lines 205-206: [filtered_df['value_score'] = ...]. *)
Definition stmt_value_score (fdf : Ref) : Py unit :=
  f <- get fdf ;;
  put fdf (mkFrame (rows f) (geometry_column f) (Some (value_score (rows f)))).

(** A call of the specification's [filter]: the statement, and the frame
    it yields. *)
Definition call_filter (df : Ref) (price_range : float * float)
    (borough_filter : list string) : Py Frame :=
  r <- stmt_filter df price_range borough_filter ;;
  get r.

(** A call of the specification's [membershipQuery] on a frame of
    listings. *)
Definition call_membershipQuery (listings : Ref) (landmark : Geos.Coordinate)
    (bufferDistance : float) : Py Frame :=
  g <- stmt_gdf listings ;;
  region <- lift (Geos.buffer_point landmark bufferDistance) ;;
  r <- stmt_within g region ;;
  get r.

(** What a run hands to the rendering calls. *)
Record Dashboard : Type := mkDashboard {
  shown : Frame;
  central_park_hits : Frame;
  sol_hits : Frame
}.

Section Script.

Variable buffer_polygon : Geos.Ring -> float -> Geos.Polygon.

(** The statements of one run, in the order of the script, from the
    object [df] that [load_data] returned. *)
Definition script (df : Ref) (price_range : float * float)
    (borough_filter : list string) : Py Dashboard :=
  fdf <- stmt_filter df price_range borough_filter ;;
  g <- stmt_gdf fdf ;;
  sol_region <- lift (Geos.buffer_point statue_of_liberty buffer_distance) ;;
  cp <- stmt_within g (buffer_polygon central_park buffer_distance) ;;
  sol <- stmt_within g sol_region ;;
  _ <- stmt_value_score fdf ;;
  f <- get fdf ;;
  c <- get cp ;;
  s <- get sol ;;
  ret (mkDashboard f c s).

End Script.

(** What each statement computes from the frame it reads. *)

Definition filter_value (f : Frame) (price_range : float * float)
    (borough_filter : list string) : PyResult Frame :=
  getitem_frame f (filter_mask (rows f) price_range borough_filter).

Definition gdf_value (f : Frame) : Frame :=
  mkFrame (rows f) (Some (geometry (rows f))) (value_score_column f).

Definition within_value (f : Frame) (region : Geos.Polygon) : PyResult Frame :=
  match geometry_column f with
  | None => Raise AttributeError
  | Some points =>
      getitem_frame f (map (fun p => Geos.within p region) points)
  end.

Definition membership_value (f : Frame) (landmark : Geos.Coordinate)
    (bufferDistance : float) : PyResult Frame :=
  match Geos.buffer_point landmark bufferDistance with
  | Raise e => Raise e
  | Ok region => within_value (gdf_value f) region
  end.

Definition scored (f : Frame) : Frame :=
  mkFrame (rows f) (geometry_column f) (Some (value_score (rows f))).

Definition dashboard_value
    (buffer_polygon : Geos.Ring -> float -> Geos.Polygon) (f : Frame)
    (price_range : float * float) (borough_filter : list string)
  : PyResult Dashboard :=
  match filter_value f price_range borough_filter with
  | Raise e => Raise e
  | Ok fdf =>
      match Geos.buffer_point statue_of_liberty buffer_distance with
      | Raise e => Raise e
      | Ok sol_region =>
          match within_value (gdf_value fdf)
                  (buffer_polygon central_park buffer_distance) with
          | Raise e => Raise e
          | Ok cp =>
              match within_value (gdf_value fdf) sol_region with
              | Raise e => Raise e
              | Ok sol => Ok (mkDashboard (scored fdf) cp sol)
              end
          end
      end
  end.

(** A table as [load_data] returns it: no geometry, no score. *)
Definition loaded (table : DataFrame) : Frame := mkFrame table None None.

(** The frame of a [GeoDataFrame] value. *)
Definition geo_frame (g : GeoDataFrame) : Frame :=
  mkFrame (map fst g) (Some (map snd g)) None.

End Runtime.

(** * Lemmas *)

(** ** IEEE-754 facts used by the pipeline

    Everything here is derived from the specification of the primitive
    operations ([FloatAxioms]) over [SpecFloat]. *)

Module F64.

(** Comparison of specification floats: a partial order away from NaN. *)

Ltac sf_cases :=
  repeat match goal with
    | s : bool |- _ => destruct s
    | |- context [Z.compare ?a ?b] => destruct (Z.compare_spec a b)
    | |- context [Pos.compare ?a ?b] => destruct (Pos.compare_spec a b)
    | H : context [Z.compare ?a ?b] |- _ => destruct (Z.compare_spec a b)
    | H : context [Pos.compare ?a ?b] |- _ => destruct (Pos.compare_spec a b)
    end.

Ltac sf_unfold :=
  unfold SFleb, SFltb, SFeqb, SFcompare in *;
  change (Pos.compare_cont Eq) with Pos.compare in *.

Lemma SFcompare_refl (x : spec_float) :
  x <> S754_nan -> SFcompare x x = Some Eq.
Proof.
  destruct x as [s | s | | s m e]; simpl; intros Hx; try congruence.
  - now destruct s.
  - rewrite Z.compare_refl.
    change (Pos.compare_cont Eq m m) with (Pos.compare m m).
    rewrite Pos.compare_refl. now destruct s.
Qed.

Lemma SFleb_between_empty (a x b : spec_float) :
  SFleb a x = true -> SFleb x b = true -> SFltb b a = false.
Proof.
  destruct a as [sa | sa | | sa ma ea], x as [sx | sx | | sx mx ex],
           b as [sb | sb | | sb mb eb];
    sf_unfold; intros H1 H2; try discriminate; try reflexivity;
    sf_cases; simpl in *; try discriminate; try reflexivity;
    subst; try lia.
Qed.

Lemma SFeqb_leb (x a : spec_float) :
  SFeqb x a = true -> SFleb a x = true /\ SFleb x a = true.
Proof.
  destruct a as [sa | sa | | sa ma ea], x as [sx | sx | | sx mx ex];
    sf_unfold; intros H1; try discriminate; split; try reflexivity;
    sf_cases; simpl in *; try discriminate; try reflexivity;
    subst; try lia.
Qed.

Lemma SFleb_trans (a x b : spec_float) :
  SFleb a x = true -> SFleb x b = true -> SFleb a b = true.
Proof.
  destruct a as [sa | sa | | sa ma ea], x as [sx | sx | | sx mx ex],
           b as [sb | sb | | sb mb eb];
    sf_unfold; intros H1 H2; try discriminate; try reflexivity;
    sf_cases; simpl in *; try discriminate; try reflexivity;
    subst; try lia.
Qed.

(** The same facts on primitive floats. *)

Lemma is_nan_spec (x : float) : is_nan x = true -> Prim2SF x = S754_nan.
Proof.
  unfold is_nan. rewrite FloatAxioms.eqb_spec. intros H.
  destruct (Prim2SF x) eqn:E; try reflexivity;
    unfold SFeqb in H; rewrite SFcompare_refl in H by discriminate;
    discriminate.
Qed.

Lemma leb_nan_r (a x : float) : is_nan x = true -> (a <=? x) = false.
Proof.
  intros H. rewrite FloatAxioms.leb_spec, (is_nan_spec x H).
  unfold SFleb, SFcompare. now destruct (Prim2SF a).
Qed.

Lemma leb_nan_l (x b : float) : is_nan x = true -> (x <=? b) = false.
Proof.
  intros H. rewrite FloatAxioms.leb_spec, (is_nan_spec x H). reflexivity.
Qed.

Lemma between_empty (a x b : float) :
  (b <? a) = true -> (a <=? x) && (x <=? b) = false.
Proof.
  rewrite FloatAxioms.ltb_spec, !FloatAxioms.leb_spec. intros Hlt.
  destruct (SFleb (Prim2SF a) (Prim2SF x)) eqn:H1; [ | reflexivity ].
  destruct (SFleb (Prim2SF x) (Prim2SF b)) eqn:H2; [ | reflexivity ].
  rewrite (SFleb_between_empty _ _ _ H1 H2) in Hlt. discriminate.
Qed.

Lemma eqb_between_l (a x b : float) :
  (x =? a) = true -> (a <=? b) = true -> (a <=? x) && (x <=? b) = true.
Proof.
  rewrite FloatAxioms.eqb_spec, !FloatAxioms.leb_spec. intros He Hab.
  destruct (SFeqb_leb _ _ He) as [H1 H2].
  rewrite H1, (SFleb_trans _ _ _ H2 Hab). reflexivity.
Qed.

Lemma eqb_between_r (a x b : float) :
  (x =? b) = true -> (a <=? b) = true -> (a <=? x) && (x <=? b) = true.
Proof.
  rewrite FloatAxioms.eqb_spec, !FloatAxioms.leb_spec. intros He Hab.
  destruct (SFeqb_leb _ _ He) as [H1 H2].
  rewrite H2, (SFleb_trans _ _ _ Hab H1). reflexivity.
Qed.

(** Division by a zero of either sign: the quotient is an infinity or
    NaN, never a finite number. *)

Lemma is_zero_spec (x : float) :
  is_zero x = true -> exists s, Prim2SF x = S754_zero s.
Proof.
  unfold is_zero, zero. rewrite FloatAxioms.eqb_spec.
  change (Prim2SF 0) with (S754_zero false).
  destruct (Prim2SF x) as [s | s | | s m e]; sf_unfold; intros H;
    try discriminate; try (now exists s); now destruct s.
Qed.

Lemma div_zero (x p : float) :
  is_zero p = true ->
  x / p = infinity \/ x / p = neg_infinity \/ x / p = nan.
Proof.
  intros Hp. destruct (is_zero_spec p Hp) as [s Hs].
  rewrite <- (SF2Prim_Prim2SF (x / p)), FloatAxioms.div_spec, Hs.
  unfold SF64div, SFdiv.
  destruct (Prim2SF x) as [sx | sx | | sx mx ex];
    try (destruct (xorb sx s); auto); auto.
Qed.

End F64.

(** ** Lemmas on the pandas operations *)

Section MaskLemmas.

Context {A : Type}.

Lemma combine_map_same {B C : Type} (f : A -> B) (g : A -> C) (l : list A) :
  combine (map f l) (map g l) = map (fun x => (f x, g x)) l.
Proof.
  induction l as [| x l IH]; simpl; [ reflexivity | now rewrite IH ].
Qed.

Lemma and_map (f g : A -> bool) (l : list A) :
  Pandas.and_ (map f l) (map g l) = map (fun x => f x && g x) l.
Proof.
  unfold Pandas.and_. rewrite combine_map_same, map_map. reflexivity.
Qed.

Lemma getitem_mask_map (f : A -> bool) (l : list A) :
  Pandas.getitem_mask l (map f l) = Ok (filter f l).
Proof.
  induction l as [| x l IH]; simpl; [ reflexivity | ].
  rewrite IH. reflexivity.
Qed.

Lemma filter_Subseq (f : A -> bool) (l : list A) : Subseq (filter f l) l.
Proof.
  induction l as [| x l IH]; simpl; [ constructor | ].
  destruct (f x); now constructor.
Qed.

Lemma Subseq_In (l1 l2 : list A) (x : A) :
  Subseq l1 l2 -> In x l1 -> In x l2.
Proof.
  induction 1 as [| y l1 l2 _ IH | y l1 l2 _ IH]; simpl; intuition.
Qed.

Lemma Subseq_length (l1 l2 : list A) :
  Subseq l1 l2 -> (List.length l1 <= List.length l2)%nat.
Proof.
  induction 1; simpl; lia.
Qed.

End MaskLemmas.

Lemma filter_mask_keep (df : DataFrame) (pr : float * float)
    (boroughs : list string) :
  filter_mask df pr boroughs = map (keep (fst pr) (snd pr) boroughs) df.
Proof.
  unfold filter_mask, Pandas.between, Pandas.ge, Pandas.le, Pandas.isin.
  rewrite !map_map, and_map, and_map. reflexivity.
Qed.

Lemma filtered_df_filter (df : DataFrame) (pr : float * float)
    (boroughs : list string) :
  filtered_df df pr boroughs = Ok (filter (keep (fst pr) (snd pr) boroughs) df).
Proof.
  unfold filtered_df. rewrite filter_mask_keep. apply getitem_mask_map.
Qed.

Lemma in_boroughs_In (boroughs : list string) (l : Listing) :
  in_boroughs boroughs l = true <-> In (neighbourhood_group l) boroughs.
Proof.
  unfold in_boroughs. rewrite existsb_exists. split.
  - intros [b [Hin Heq]]. apply String.eqb_eq in Heq. now subst.
  - intros Hin. exists (neighbourhood_group l). split; [ assumption | ].
    apply String.eqb_refl.
Qed.

Lemma value_score_rows (fdf : DataFrame) :
  value_score fdf = map computeValueScore fdf.
Proof.
  unfold value_score, Pandas.truediv, Pandas.mul.
  induction fdf as [| l fdf IH]; simpl; [ reflexivity | ].
  now rewrite IH.
Qed.

(** ** Lemmas on the spatial queries *)

Lemma filter_map_commute {A B : Type} (f : B -> bool) (g : A -> B) (l : list A) :
  filter f (map g l) = map g (filter (fun x => f (g x)) l).
Proof.
  induction l as [| x l IH]; simpl; [ reflexivity | ].
  rewrite IH. now destruct (f (g x)).
Qed.

Lemma gdf_rows (fdf : DataFrame) :
  gdf fdf = map (fun l => (l, point_of l)) fdf.
Proof.
  unfold gdf, geometry.
  induction fdf as [| l fdf IH]; simpl; [ reflexivity | now rewrite IH ].
Qed.

Lemma spatial_query_filter (g : GeoDataFrame) (region : Geos.Polygon) :
  spatial_query g region = Ok (filter (fun r => Geos.within (snd r) region) g).
Proof.
  unfold spatial_query, within_series. apply getitem_mask_map.
Qed.

Lemma membershipQuery_filter (listings : DataFrame) (landmark : Geos.Coordinate)
    (d : float) :
  membershipQuery listings landmark d =
  if is_finite d then
    Ok (map (fun l => (l, point_of l))
          (filter (fun l => Geos.within (point_of l)
                              (Geos.circle_polygon landmark d)) listings))
  else Raise ValueError.
Proof.
  unfold membershipQuery, Geos.buffer_point.
  destruct (is_finite d); [ | reflexivity ].
  rewrite spatial_query_filter, gdf_rows, filter_map_commute. reflexivity.
Qed.

(** A vertex of a ring is located on its boundary. *)













Lemma liberty_buffer :
  Geos.buffer_point statue_of_liberty buffer_distance
  = Ok (Geos.mkPolygon liberty_ring []).
Proof.
  reflexivity.
Qed.

Lemma existsb_same_elements {A : Type} (f : A -> bool) (l l' : list A) :
  (forall x, In x l <-> In x l') -> existsb f l = existsb f l'.
Proof.
  intros H. apply eq_true_iff_eq. rewrite !existsb_exists.
  split; intros [x [Hin Hf]]; exists x; split; auto; now apply H.
Qed.

(** ** Division by zero, case by case *)

Lemma is_nan_Prim2SF (x : float) :
  is_nan x = match Prim2SF x with S754_nan => true | _ => false end.
Proof.
  unfold is_nan. rewrite FloatAxioms.eqb_spec. unfold SFeqb.
  destruct (Prim2SF x) as [s | s | | s m e] eqn:E; try reflexivity;
    rewrite F64.SFcompare_refl; try reflexivity; discriminate.
Qed.

Lemma is_zero_Prim2SF (x : float) :
  is_zero x = match Prim2SF x with S754_zero _ => true | _ => false end.
Proof.
  unfold is_zero, zero. rewrite FloatAxioms.eqb_spec.
  change (Prim2SF 0) with (S754_zero false).
  destruct (Prim2SF x) as [s | s | | s m e]; try reflexivity;
    F64.sf_unfold; now destruct s.
Qed.

Lemma div_zero_nan (x p : float) :
  is_zero p = true ->
  is_nan x = true \/ is_zero x = true -> x / p = nan.
Proof.
  intros Hp Hx. destruct (F64.is_zero_spec p Hp) as [s Hs].
  rewrite <- (SF2Prim_Prim2SF (x / p)), FloatAxioms.div_spec, Hs.
  rewrite is_nan_Prim2SF, is_zero_Prim2SF in Hx.
  destruct (Prim2SF x) as [sx | sx | | sx mx ex]; try reflexivity;
    destruct Hx; discriminate.
Qed.

Lemma div_zero_infinite (x p : float) :
  is_zero p = true ->
  is_nan x = false -> is_zero x = false ->
  x / p = infinity \/ x / p = neg_infinity.
Proof.
  intros Hp Hn Hz. destruct (F64.is_zero_spec p Hp) as [s Hs].
  rewrite <- (SF2Prim_Prim2SF (x / p)), FloatAxioms.div_spec, Hs.
  rewrite is_nan_Prim2SF in Hn. rewrite is_zero_Prim2SF in Hz.
  unfold SF64div, SFdiv.
  destruct (Prim2SF x) as [sx | sx | | sx mx ex]; try discriminate;
    destruct (xorb sx s); auto.
Qed.


(** ** Selections *)

Lemma filter_Selection {A : Type} (P : A -> bool) (l : list A) :
  Selection P (filter P l) l.
Proof.
  induction l as [| x l IH]; simpl; [ constructor | ].
  destruct (P x) eqn:E; now constructor.
Qed.

Lemma Selection_filter {A : Type} (P : A -> bool) (out l : list A) :
  Selection P out l -> out = filter P l.
Proof.
  induction 1 as [| x out l Hx _ IH | x out l Hx _ IH]; simpl;
    [ reflexivity | now rewrite Hx | rewrite Hx; now f_equal ].
Qed.


(** ** The statements over the store *)

Module RuntimeFacts.

Import Runtime.

Lemma nth_new (st : Store) (f : Frame) :
  nth (List.length st) (st ++ [f]) empty_frame = f.
Proof.
  rewrite app_nth2, Nat.sub_diag; [ reflexivity | lia ].
Qed.

Lemma nth_old (st tail : Store) (r : Ref) :
  (r < List.length st)%nat ->
  nth r (st ++ tail) empty_frame = nth r st empty_frame.
Proof.
  intros H. now apply app_nth1.
Qed.

Lemma replace_fresh (st : Store) (f x : Frame) (tail : Store) :
  replace (List.length st) f (st ++ x :: tail) = st ++ f :: tail.
Proof.
  induction st as [| y st IH]; simpl; [ reflexivity | now rewrite IH ].
Qed.

Lemma call_filter_run (df : Ref) (pr : float * float) (B : list string)
    (st : Store) :
  call_filter df pr B st
  = match filter_value (nth df st empty_frame) pr B with
    | Ok kept => Ok (kept, st ++ [kept])
    | Raise e => Raise e
    end.
Proof.
  unfold call_filter, stmt_filter, bind, get, lift, new, filter_value.
  destruct (getitem_frame (nth df st empty_frame)
              (filter_mask (rows (nth df st empty_frame)) pr B));
    [ | reflexivity ].
  now rewrite nth_new.
Qed.

Lemma call_membershipQuery_run (listings : Ref) (landmark : Geos.Coordinate)
    (d : float) (st : Store) :
  call_membershipQuery listings landmark d st
  = match membership_value (nth listings st empty_frame) landmark d with
    | Ok kept =>
        Ok (kept, st ++ [gdf_value (nth listings st empty_frame); kept])
    | Raise e => Raise e
    end.
Proof.
  unfold call_membershipQuery, stmt_gdf, stmt_within, membership_value,
    within_value, gdf_value, bind, get, lift, new, raise.
  destruct (Geos.buffer_point landmark d) as [region | e]; [ | reflexivity ].
  rewrite nth_new. cbn [geometry_column].
  match goal with
  | |- context [getitem_frame ?f ?m] => destruct (getitem_frame f m)
  end; [ | reflexivity ].
  rewrite nth_new, <- app_assoc. reflexivity.
Qed.

Lemma script_run (bp : Geos.Ring -> float -> Geos.Polygon) (df : Ref)
    (pr : float * float) (B : list string) (st : Store) :
  match dashboard_value bp (nth df st empty_frame) pr B with
  | Ok o => exists tail : Store, script bp df pr B st = Ok (o, st ++ tail)
  | Raise e => script bp df pr B st = Raise e
  end.
Proof.
  unfold dashboard_value, script, stmt_filter, stmt_gdf, stmt_within,
    stmt_value_score, filter_value, within_value, gdf_value, scored,
    bind, get, lift, new, put, raise, ret.
  destruct (getitem_frame (nth df st empty_frame)
              (filter_mask (rows (nth df st empty_frame)) pr B))
    as [fdf | e]; [ | reflexivity ].
  rewrite nth_new.
  destruct (Geos.buffer_point statue_of_liberty buffer_distance)
    as [sol_region | e]; [ | reflexivity ].
  rewrite nth_new. cbn [geometry_column].
  set (g := mkFrame (rows fdf) (Some (geometry (rows fdf))) (value_score_column fdf)).
  destruct (getitem_frame g
              (map (fun p => Geos.within p (bp central_park buffer_distance))
                 (geometry (rows fdf)))) as [cp | e]; [ | reflexivity ].
  assert (Hg : nth (List.length (st ++ [fdf])) (((st ++ [fdf]) ++ [g]) ++ [cp])
                 empty_frame = g).
  { rewrite nth_old; [ apply nth_new | rewrite !length_app; simpl; lia ]. }
  rewrite Hg. cbn [g geometry_column].
  fold g.
  destruct (getitem_frame g
              (map (fun p => Geos.within p sol_region) (geometry (rows fdf))))
    as [sol | e]; [ | reflexivity ].
  rewrite !length_app. cbn [List.length]. rewrite <- !app_assoc. cbn [app].
  rewrite nth_middle, replace_fresh, nth_middle.
  rewrite <- !Nat.add_assoc, !app_nth2_plus. cbn [Nat.add nth].
  eexists. reflexivity.
Qed.

Lemma filter_mask_same_boroughs (table : DataFrame) (pr : float * float)
    (B B' : list string) :
  (forall b : string, In b B <-> In b B') ->
  filter_mask table pr B = filter_mask table pr B'.
Proof.
  intros H. rewrite !filter_mask_keep. apply map_ext. intros l.
  unfold keep, in_boroughs. f_equal. now apply existsb_same_elements.
Qed.

Lemma filter_value_loaded (table : DataFrame) (pr : float * float)
    (B : list string) :
  filter_value (loaded table) pr B
  = match filtered_df table pr B with
    | Ok out => Ok (loaded out)
    | Raise e => Raise e
    end.
Proof.
  unfold filter_value, getitem_frame, filtered_df, loaded. simpl.
  now destruct (Pandas.getitem_mask table (filter_mask table pr B)).
Qed.

Lemma geometry_points (table : DataFrame) :
  geometry table = map point_of table.
Proof.
  unfold geometry.
  induction table as [| l table IH]; simpl; [ reflexivity | now rewrite IH ].
Qed.

Lemma getitem_mask_map_both {A B : Type} (h : A -> B) (f : A -> bool)
    (l : list A) :
  Pandas.getitem_mask (map h l) (map f l) = Ok (map h (filter f l)).
Proof.
  induction l as [| x l IH]; simpl; [ reflexivity | ].
  rewrite IH. now destruct (f x).
Qed.

Lemma membership_value_loaded (table : DataFrame)
    (landmark : Geos.Coordinate) (d : float) :
  membership_value (loaded table) landmark d
  = match membershipQuery table landmark d with
    | Ok hits => Ok (geo_frame hits)
    | Raise e => Raise e
    end.
Proof.
  unfold membership_value, membershipQuery.
  destruct (Geos.buffer_point landmark d) as [region | e]; [ | reflexivity ].
  rewrite spatial_query_filter, gdf_rows, filter_map_commute.
  unfold within_value, gdf_value, getitem_frame, geo_frame, loaded. simpl.
  rewrite geometry_points, map_map.
  rewrite getitem_mask_map, getitem_mask_map_both. simpl.
  rewrite !map_map. simpl. now rewrite map_id.
Qed.

End RuntimeFacts.

(** * The claims *)

(** ** C3, C4, C7, C9, C10: the filter *)

(** C3: for every table, bounds and borough set, [filtered_df] evaluates to
    exactly the rows, in table order, whose price satisfies
    [price_min <= price <= price_max] (both bounds inclusive, binary64
    comparison) and whose borough is an exact-match member of the set; a row
    whose borough is selected and whose price equals one of the bounds of a
    range with [price_min <= price_max] is included. *)
Theorem C3_filter_exact (df : DataFrame) (price_min price_max : float)
    (boroughs : list string) :
  filtered_df df (price_min, price_max) boroughs
    = Ok (filter (keep price_min price_max boroughs) df)
  /\ (forall l : Listing,
        In l (filter (keep price_min price_max boroughs) df) <->
        In l df /\ (price_min <=? price l) = true
        /\ (price l <=? price_max) = true
        /\ In (neighbourhood_group l) boroughs)
  /\ (forall l : Listing,
        In l df -> In (neighbourhood_group l) boroughs ->
        (price_min <=? price_max) = true ->
        (price l =? price_min) = true \/ (price l =? price_max) = true ->
        In l (filter (keep price_min price_max boroughs) df)).
Proof.
  assert (Hkeep : forall l : Listing,
             keep price_min price_max boroughs l = true <->
             (price_min <=? price l) = true /\ (price l <=? price_max) = true
             /\ In (neighbourhood_group l) boroughs).
  { intros l. unfold keep, in_price_range.
    rewrite !andb_true_iff, in_boroughs_In. tauto. }
  split; [ apply (filtered_df_filter df (price_min, price_max)) | split ].
  - intros l. rewrite filter_In, Hkeep. tauto.
  - intros l Hin Hb Hle Hp. apply filter_In. split; [ exact Hin | ].
    unfold keep. apply andb_true_iff. split; [ | now apply in_boroughs_In ].
    unfold in_price_range. destruct Hp as [Hp | Hp].
    + now apply F64.eqb_between_l.
    + now apply F64.eqb_between_r.
Qed.

(** C3, at the sample table with the range 50..300 and two boroughs: the
    rows priced exactly 50 and exactly 300 are kept. *)
Lemma C3_filter_exact_witness :
  filtered_df sample_table (50, 300) ["Brooklyn"; "Manhattan"]%string
    = Ok (filter (keep 50 300 ["Brooklyn"; "Manhattan"]%string) sample_table)
  /\ In (nth 0 sample_table value_example)
        (filter (keep 50 300 ["Brooklyn"; "Manhattan"]%string) sample_table)
  /\ In (nth 1 sample_table value_example)
        (filter (keep 50 300 ["Brooklyn"; "Manhattan"]%string) sample_table).
Proof.
  destruct (C3_filter_exact sample_table 50 300 ["Brooklyn"; "Manhattan"]%string)
    as [Heq [_ Hbound]].
  split; [ exact Heq | split ].
  - apply Hbound; [ simpl; tauto | simpl; tauto | reflexivity | ].
    left. reflexivity.
  - apply Hbound; [ simpl; tauto | simpl; tauto | reflexivity | ].
    right. reflexivity.
Defined.

(** C4: when [price_min > price_max] the filter evaluates, without raising,
    to the empty table, whatever the table and the borough set. *)
Theorem C4_inverted_range_empty (df : DataFrame) (price_min price_max : float)
    (boroughs : list string) :
  (price_max <? price_min) = true ->
  filtered_df df (price_min, price_max) boroughs = Ok [].
Proof.
  intros Hinv. rewrite filtered_df_filter. f_equal. simpl fst; simpl snd.
  induction df as [| l df IH]; simpl; [ reflexivity | ].
  unfold keep at 1, in_price_range.
  rewrite (F64.between_empty price_min (price l) price_max Hinv).
  exact IH.
Qed.

(** C4, at the sample table with the inverted range 300..50. *)
Lemma C4_inverted_range_empty_witness :
  (50 <? 300) = true /\
  filtered_df sample_table (300, 50) ["Brooklyn"; "Manhattan"; "Queens"]%string
    = Ok [].
Proof.
  split; [ reflexivity | ].
  apply (C4_inverted_range_empty sample_table 300 50). reflexivity.
Defined.

(** C7: the output of the filter is obtained from the table by deleting
    exactly the rows that do not match, the matching rows staying in their
    relative order, none repeated, none added: it is a subsequence of the
    table, and the only list that selects the matching rows from it. *)
Theorem C7_filter_subsequence (df : DataFrame) (price_min price_max : float)
    (boroughs : list string) :
  exists out : DataFrame,
    filtered_df df (price_min, price_max) boroughs = Ok out
    /\ Selection (keep price_min price_max boroughs) out df
    /\ Subseq out df
    /\ (forall out' : DataFrame,
          Selection (keep price_min price_max boroughs) out' df -> out' = out).
Proof.
  exists (filter (keep price_min price_max boroughs) df).
  split; [ apply (filtered_df_filter df (price_min, price_max)) | ].
  split; [ apply filter_Selection | ].
  split; [ apply filter_Subseq | ].
  intros out' H. now apply Selection_filter.
Qed.

(** C9: with an empty borough set the filter evaluates to the empty table,
    for every table and every price range. *)
Theorem C9_empty_borough_set (df : DataFrame) (price_range : float * float) :
  filtered_df df price_range [] = Ok [].
Proof.
  rewrite filtered_df_filter. f_equal.
  induction df as [| l df IH]; simpl; [ reflexivity | ].
  unfold keep at 1, in_boroughs. simpl. rewrite andb_false_r. exact IH.
Qed.

(** C10: a row whose price is missing (NaN) is left out by the filter, for
    every price range and borough set, and the filter does not raise: both
    comparisons of [between] are false on NaN. *)
Theorem C10_nan_price_excluded (df : DataFrame) (price_range : float * float)
    (boroughs : list string) (l : Listing) :
  is_nan (price l) = true ->
  exists out : DataFrame,
    filtered_df df price_range boroughs = Ok out /\ ~ In l out.
Proof.
  intros Hnan. eexists. split; [ apply filtered_df_filter | ].
  rewrite filter_In. intros [_ Hkeep].
  unfold keep, in_price_range in Hkeep.
  rewrite (F64.leb_nan_r _ _ Hnan) in Hkeep. discriminate.
Qed.

(** C10, at the sample table, whose third row has no price. *)
Lemma C10_nan_price_excluded_witness :
  is_nan (price (nth 2 sample_table value_example)) = true /\
  exists out : DataFrame,
    filtered_df sample_table (0, 1000) ["Manhattan"]%string = Ok out
    /\ ~ In (nth 2 sample_table value_example) out.
Proof.
  split; [ reflexivity | ].
  apply (C10_nan_price_excluded sample_table (0, 1000)). reflexivity.
Defined.

(** ** C5, C1: the value score *)




(** C1, counterexample: the row of the specification's example (price 0, 5
    reviews, rating 5) scores [+infinity], a free row without reviews scores
    NaN, and so no sentinel stands for the score of the rows priced 0. *)
Lemma C1_zero_price_no_sentinel :
  value_score [free_with_reviews] = [infinity]
  /\ value_score [free_without_reviews] = [nan]
  /\ ~ (exists sentinel : float,
          forall l : Listing,
            is_zero (price l) = true -> value_score [l] = [sentinel]).
Proof.
  split; [ reflexivity | split; [ reflexivity | ] ].
  intros [sentinel H].
  pose proof (H free_with_reviews eq_refl) as H1.
  pose proof (H free_without_reviews eq_refl) as H2.
  vm_compute in H1, H2.
  assert (Heq : infinity = nan) by congruence.
  apply (f_equal is_nan) in Heq. vm_compute in Heq. discriminate.
Qed.

(** C1, amended: for a row priced 0 (of either sign) the score is the
    binary64 quotient of the product of its review count and rating by that
    zero, nothing being put in its place: NaN when the product is zero or
    NaN, and [+infinity] or [-infinity] otherwise.  The column is computed
    without an exception and the scores of the rows before and after are
    what they are without that row. *)
Theorem C1_zero_price_score (before after : DataFrame) (r : Listing) :
  is_zero (price r) = true ->
  value_score (before ++ r :: after)
    = value_score before ++ (score_numerator r / price r) :: value_score after
  /\ (is_nan (score_numerator r) = true \/ is_zero (score_numerator r) = true ->
      score_numerator r / price r = nan)
  /\ (is_nan (score_numerator r) = false ->
      is_zero (score_numerator r) = false ->
      score_numerator r / price r = infinity
      \/ score_numerator r / price r = neg_infinity).
Proof.
  intros Hzero. split; [ | split ].
  - rewrite !value_score_rows, map_app. reflexivity.
  - now apply div_zero_nan.
  - now apply div_zero_infinite.
Qed.

(** C1, amended, at a free row with reviews between two priced rows, and
    at a free row without reviews. *)
Lemma C1_zero_price_score_witness :
  is_zero (price free_with_reviews) = true
  /\ value_score ([value_example] ++ free_with_reviews :: [near_liberty])
     = value_score [value_example]
       ++ (score_numerator free_with_reviews / price free_with_reviews)
          :: value_score [near_liberty]
  /\ (score_numerator free_with_reviews / price free_with_reviews = infinity
      \/ score_numerator free_with_reviews / price free_with_reviews
         = neg_infinity)
  /\ score_numerator free_without_reviews / price free_without_reviews = nan.
Proof.
  destruct (C1_zero_price_score [value_example] [near_liberty]
              free_with_reviews eq_refl) as [Hcol [_ Hinf]].
  destruct (C1_zero_price_score [] [] free_without_reviews eq_refl)
    as [_ [Hnan _]].
  split; [ reflexivity | split; [ exact Hcol | split ] ].
  - apply Hinf; reflexivity.
  - apply Hnan. right. reflexivity.
Defined.

(** ** C2: membership in the buffer of a point landmark *)




(** ** C6, C8: determinism and the subset property *)

(** C6: a call of the filter or of the membership query, and a whole run
    of the script, return the same outcome in any two stores of Python
    objects whenever the frame they are given holds the same table and the
    bounds, the set of boroughs (however the selection lists it), the
    landmark and the distance are the same: nothing else in the store is
    read.  A call or a run leaves the frame it was given as it was, so that
    a second run from the store the first one left returns what the first
    returned.  On a table as loaded the outcomes are those of [filtered_df]
    and [membershipQuery]. *)
Theorem C6_no_hidden_state (buffer_polygon : Geos.Ring -> float -> Geos.Polygon)
    (st st' : Runtime.Store) (df df' : Runtime.Ref)
    (price_range : float * float) (boroughs boroughs' : list string)
    (landmark : Geos.Coordinate) (d : float) :
  nth df st Runtime.empty_frame = nth df' st' Runtime.empty_frame ->
  (forall b : string, In b boroughs <-> In b boroughs') ->
  Runtime.outcome (Runtime.call_filter df price_range boroughs) st
  = Runtime.outcome (Runtime.call_filter df' price_range boroughs') st'
  /\ Runtime.outcome (Runtime.call_membershipQuery df landmark d) st
     = Runtime.outcome (Runtime.call_membershipQuery df' landmark d) st'
  /\ Runtime.outcome (Runtime.script buffer_polygon df price_range boroughs) st
     = Runtime.outcome
         (Runtime.script buffer_polygon df' price_range boroughs') st'
  /\ ((df < List.length st)%nat ->
      (forall f st1,
          Runtime.call_filter df price_range boroughs st = Ok (f, st1) ->
          nth df st1 Runtime.empty_frame = nth df st Runtime.empty_frame)
      /\ (forall f st1,
            Runtime.call_membershipQuery df landmark d st = Ok (f, st1) ->
            nth df st1 Runtime.empty_frame = nth df st Runtime.empty_frame)
      /\ (forall o st1,
            Runtime.script buffer_polygon df price_range boroughs st
            = Ok (o, st1) ->
            nth df st1 Runtime.empty_frame = nth df st Runtime.empty_frame
            /\ Runtime.outcome
                 (Runtime.script buffer_polygon df price_range boroughs) st1
               = Ok o))
  /\ (forall table : DataFrame,
        nth df st Runtime.empty_frame = Runtime.loaded table ->
        Runtime.outcome (Runtime.call_filter df price_range boroughs) st
        = match filtered_df table price_range boroughs with
          | Ok out => Ok (Runtime.loaded out)
          | Raise e => Raise e
          end
        /\ Runtime.outcome (Runtime.call_membershipQuery df landmark d) st
           = match membershipQuery table landmark d with
             | Ok hits => Ok (Runtime.geo_frame hits)
             | Raise e => Raise e
             end).
Proof.
  intros Hframe Hset.
  assert (Hfilter : forall r s B,
             Runtime.outcome (Runtime.call_filter r price_range B) s
             = Runtime.filter_value (nth r s Runtime.empty_frame) price_range B).
  { intros r s B. unfold Runtime.outcome.
    rewrite RuntimeFacts.call_filter_run.
    now destruct (Runtime.filter_value _ _ _). }
  assert (Hmember : forall r s,
             Runtime.outcome (Runtime.call_membershipQuery r landmark d) s
             = Runtime.membership_value (nth r s Runtime.empty_frame) landmark d).
  { intros r s. unfold Runtime.outcome.
    rewrite RuntimeFacts.call_membershipQuery_run.
    now destruct (Runtime.membership_value _ _ _). }
  assert (Hscript : forall r s B,
             Runtime.outcome (Runtime.script buffer_polygon r price_range B) s
             = Runtime.dashboard_value buffer_polygon
                 (nth r s Runtime.empty_frame) price_range B).
  { intros r s B. unfold Runtime.outcome.
    pose proof (RuntimeFacts.script_run buffer_polygon r price_range B s) as H.
    destruct (Runtime.dashboard_value _ _ _ _) as [o | e].
    - destruct H as [tail H]. now rewrite H.
    - now rewrite H. }
  assert (Hvalue : Runtime.filter_value (nth df' st' Runtime.empty_frame)
                     price_range boroughs
                   = Runtime.filter_value (nth df' st' Runtime.empty_frame)
                       price_range boroughs').
  { unfold Runtime.filter_value.
    now rewrite (RuntimeFacts.filter_mask_same_boroughs _ _ _ _ Hset). }
  split; [ | split; [ | split; [ | split ] ] ].
  - now rewrite !Hfilter, Hframe.
  - now rewrite !Hmember, Hframe.
  - rewrite !Hscript, Hframe. unfold Runtime.dashboard_value.
    now rewrite Hvalue.
  - intros Hlive. split; [ | split ].
    + intros f st1 H. rewrite RuntimeFacts.call_filter_run in H.
      destruct (Runtime.filter_value (nth df st Runtime.empty_frame)
                  price_range boroughs); [ | discriminate ].
      inversion H. now apply RuntimeFacts.nth_old.
    + intros f st1 H. rewrite RuntimeFacts.call_membershipQuery_run in H.
      destruct (Runtime.membership_value (nth df st Runtime.empty_frame)
                  landmark d); [ | discriminate ].
      inversion H. now apply RuntimeFacts.nth_old.
    + intros o st1 H.
      pose proof (RuntimeFacts.script_run buffer_polygon df price_range
                    boroughs st) as Hrun.
      destruct (Runtime.dashboard_value buffer_polygon
                  (nth df st Runtime.empty_frame) price_range boroughs)
        as [o' | e] eqn:Hval.
      * destruct Hrun as [tail Hrun]. rewrite Hrun in H. inversion H. subst.
        assert (Hsame : nth df (st ++ tail) Runtime.empty_frame
                        = nth df st Runtime.empty_frame)
          by now apply RuntimeFacts.nth_old.
        split; [ exact Hsame | ].
        now rewrite Hscript, Hsame.
      * rewrite Hrun in H. discriminate.
  - intros table Htable. split.
    + rewrite Hfilter, Htable. apply RuntimeFacts.filter_value_loaded.
    + rewrite Hmember, Htable. apply RuntimeFacts.membership_value_loaded.
Qed.

(** C6, at two stores that hold the sample table at different addresses,
    beside other frames, and one selection written in two ways. *)
Lemma C6_no_hidden_state_witness :
  nth 0%nat [Runtime.loaded sample_table; Runtime.loaded [value_example]]
        Runtime.empty_frame
  = nth 2%nat [Runtime.loaded []; Runtime.scored (Runtime.loaded [near_liberty]);
           Runtime.loaded sample_table] Runtime.empty_frame
  /\ Runtime.outcome
       (Runtime.call_filter 0%nat (50, 300) ["Manhattan"; "Brooklyn"]%string)
       [Runtime.loaded sample_table; Runtime.loaded [value_example]]
     = Runtime.outcome
         (Runtime.call_filter 2%nat (50, 300)
            ["Brooklyn"; "Manhattan"; "Brooklyn"]%string)
         [Runtime.loaded []; Runtime.scored (Runtime.loaded [near_liberty]);
          Runtime.loaded sample_table]
  /\ Runtime.outcome
       (Runtime.call_membershipQuery 0%nat statue_of_liberty buffer_distance)
       [Runtime.loaded sample_table; Runtime.loaded [value_example]]
     = Runtime.outcome
         (Runtime.call_membershipQuery 2%nat statue_of_liberty buffer_distance)
         [Runtime.loaded []; Runtime.scored (Runtime.loaded [near_liberty]);
          Runtime.loaded sample_table].
Proof.
  split; [ reflexivity | ].
  destruct (C6_no_hidden_state (fun _ _ => Geos.mkPolygon [] [])
              [Runtime.loaded sample_table; Runtime.loaded [value_example]]
              [Runtime.loaded []; Runtime.scored (Runtime.loaded [near_liberty]);
               Runtime.loaded sample_table]
              0%nat 2%nat (50, 300)
              ["Manhattan"; "Brooklyn"]%string
              ["Brooklyn"; "Manhattan"; "Brooklyn"]%string
              statue_of_liberty buffer_distance eq_refl)
    as [Hf [Hm _]].
  - intros b. simpl. tauto.
  - split; [ exact Hf | exact Hm ].
Defined.

(** C8: every row of the output of the filter is a row of the table, and
    every row of the output of a landmark query (Central Park, Statue of
    Liberty, or any point landmark and finite distance) is a row of the
    frame it queries, carrying a listing of the input with its own point; a
    distance that is not finite gives no output but a ValueError. *)
Theorem C8_outputs_within_inputs (df : DataFrame) (price_range : float * float)
    (boroughs : list string) (g : GeoDataFrame)
    (buffer_polygon : Geos.Ring -> float -> Geos.Polygon)
    (landmark : Geos.Coordinate) (d : float) :
  (exists out : DataFrame,
      filtered_df df price_range boroughs = Ok out
      /\ forall l : Listing, In l out -> In l df)
  /\ (exists out : GeoDataFrame,
        central_park_listings buffer_polygon g = Ok out
        /\ forall r, In r out -> In r g)
  /\ (exists out : GeoDataFrame,
        sol_listings g = Ok out /\ forall r, In r out -> In r g)
  /\ match membershipQuery df landmark d with
     | Ok out =>
         is_finite d = true
         /\ forall r, In r out -> In (fst r) df /\ snd r = point_of (fst r)
     | Raise e => is_finite d = false /\ e = ValueError
     end.
Proof.
  split; [ | split; [ | split ] ].
  - eexists. split; [ apply filtered_df_filter | ].
    intros l Hl. now apply filter_In in Hl.
  - eexists. split; [ apply spatial_query_filter | ].
    intros r Hr. now apply filter_In in Hr.
  - unfold sol_listings. rewrite liberty_buffer.
    eexists. split; [ apply spatial_query_filter | ].
    intros r Hr. now apply filter_In in Hr.
  - rewrite membershipQuery_filter.
    destruct (is_finite d); [ | now split ].
    split; [ reflexivity | ].
    intros r Hr. apply in_map_iff in Hr. destruct Hr as [l [<- Hl]].
    apply filter_In in Hl. simpl. tauto.
Qed.

(** * Further properties of the script *)

(** ** More on the order of binary64 numbers *)

Module F64Order.

Ltac sf_solve :=
  F64.sf_unfold; intros; try discriminate; try reflexivity;
  F64.sf_cases; simpl in *; try discriminate; try reflexivity;
  subst; try lia.


Lemma SFltb_leb_trans (a x b : spec_float) :
  SFltb a x = true -> SFleb x b = true -> SFltb a b = true.
Proof.
  destruct a as [sa | sa | | sa ma ea], x as [sx | sx | | sx mx ex],
           b as [sb | sb | | sb mb eb]; sf_solve.
Qed.

Lemma SFltb_strict (a b : spec_float) :
  SFltb a b = true ->
  SFltb b a = false /\ SFleb b a = false /\ SFeqb a b = false
  /\ SFeqb b a = false.
Proof.
  destruct a as [sa | sa | | sa ma ea], b as [sb | sb | | sb mb eb];
    F64.sf_unfold; intros H; try discriminate; repeat split;
    F64.sf_cases; simpl in *; try discriminate; try reflexivity;
    subst; try lia.
Qed.


Lemma leb_trans (a x b : float) :
  (a <=? x) = true -> (x <=? b) = true -> (a <=? b) = true.
Proof.
  rewrite !FloatAxioms.leb_spec. apply F64.SFleb_trans.
Qed.


Lemma ltb_leb_trans (a x b : float) :
  (a <? x) = true -> (x <=? b) = true -> (a <? b) = true.
Proof.
  rewrite FloatAxioms.leb_spec, !FloatAxioms.ltb_spec. apply SFltb_leb_trans.
Qed.

Lemma ltb_strict (a b : float) :
  (a <? b) = true ->
  (b <? a) = false /\ (b <=? a) = false /\ (a =? b) = false /\ (b =? a) = false.
Proof.
  rewrite !FloatAxioms.ltb_spec, FloatAxioms.leb_spec, !FloatAxioms.eqb_spec.
  apply SFltb_strict.
Qed.



(** A number at or above a positive one is not zero. *)
Lemma above_positive_nonzero (a p : float) :
  (0 <? a) = true -> (a <=? p) = true -> is_zero p = false.
Proof.
  intros Ha Hap. pose proof (ltb_leb_trans 0 a p Ha Hap) as Hp.
  apply ltb_strict in Hp. unfold is_zero, zero. tauto.
Qed.

(** NaN propagates through [*] and [/]. *)
Lemma mul_nan_l (x y : float) : is_nan x = true -> x * y = nan.
Proof.
  intros H. rewrite <- (SF2Prim_Prim2SF (x * y)), FloatAxioms.mul_spec.
  rewrite (F64.is_nan_spec x H). reflexivity.
Qed.

Lemma mul_nan_r (x y : float) : is_nan y = true -> x * y = nan.
Proof.
  intros H. rewrite <- (SF2Prim_Prim2SF (x * y)), FloatAxioms.mul_spec.
  rewrite (F64.is_nan_spec y H). unfold SF64mul, SFmul.
  now destruct (Prim2SF x).
Qed.

Lemma div_nan_l (y : float) : nan / y = nan.
Proof.
  rewrite <- (SF2Prim_Prim2SF (nan / y)), FloatAxioms.div_spec. reflexivity.
Qed.

End F64Order.

(** ** The sidebar and the filter *)

Lemma existsb_eqb_In (x : string) (l : list string) :
  existsb (String.eqb x) l = true <-> In x l.
Proof.
  rewrite existsb_exists. split.
  - intros [y [Hin Heq]]. apply String.eqb_eq in Heq. now subst.
  - intros Hin. exists x. split; [ exact Hin | apply String.eqb_refl ].
Qed.

Lemma unique_from_In (s : list string) :
  forall (seen : list string) (x : string),
    In x (unique_from seen s) <-> In x s /\ ~ In x seen.
Proof.
  induction s as [| y s IH]; intros seen x; simpl; [ tauto | ].
  destruct (existsb (String.eqb y) seen) eqn:E.
  - apply existsb_eqb_In in E. rewrite IH. split.
    + tauto.
    + intros [[Heq | Hin] Hns]; [ subst; contradiction | tauto ].
  - assert (Hy : ~ In y seen).
    { intros Hin. apply existsb_eqb_In in Hin. congruence. }
    simpl. rewrite IH. simpl. split.
    + intros [Heq | [Hin Hns]]; [ subst; tauto | tauto ].
    + intros [[Heq | Hin] Hns]; [ tauto | ].
      destruct (string_dec y x) as [Hyx | Hyx]; [ tauto | right; tauto ].
Qed.

Lemma unique_from_NoDup (s : list string) :
  forall seen : list string, NoDup (unique_from seen s).
Proof.
  induction s as [| y s IH]; intros seen; simpl; [ constructor | ].
  destruct (existsb (String.eqb y) seen); [ apply IH | ].
  constructor; [ | apply IH ].
  rewrite unique_from_In. simpl. tauto.
Qed.

Lemma unique_from_Subseq (s : list string) :
  forall seen : list string, Subseq (unique_from seen s) s.
Proof.
  induction s as [| y s IH]; intros seen; simpl; [ constructor | ].
  destruct (existsb (String.eqb y) seen); constructor; apply IH.
Qed.

Lemma filter_Subseq_impl {A : Type} (f g : A -> bool) (l : list A) :
  (forall x, In x l -> f x = true -> g x = true) ->
  Subseq (filter f l) (filter g l).
Proof.
  induction l as [| x l IH]; intros H; simpl; [ constructor | ].
  assert (IH' : Subseq (filter f l) (filter g l)).
  { apply IH. intros y Hy. apply H. now right. }
  destruct (f x) eqn:Ef.
  - rewrite (H x (or_introl eq_refl) Ef). now constructor.
  - destruct (g x); [ now constructor | exact IH' ].
Qed.

Lemma filter_idempotent {A : Type} (f : A -> bool) (l : list A) :
  filter f (filter f l) = filter f l.
Proof.
  induction l as [| x l IH]; simpl; [ reflexivity | ].
  destruct (f x) eqn:E; simpl; [ rewrite E, IH; reflexivity | exact IH ].
Qed.

Lemma unique_from_snoc (s : list string) :
  forall (seen : list string) (x : string),
    unique_from seen (s ++ [x])
    = if existsb (String.eqb x) seen || existsb (String.eqb x) s
      then unique_from seen s
      else unique_from seen s ++ [x].
Proof.
  induction s as [| y s IH]; intros seen x; simpl.
  - rewrite orb_false_r. now destruct (existsb (String.eqb x) seen).
  - destruct (existsb (String.eqb y) seen) eqn:Ey.
    + rewrite IH. destruct (String.eqb x y) eqn:Exy; [ | reflexivity ].
      apply String.eqb_eq in Exy. subst y. rewrite Ey. reflexivity.
    + rewrite IH. simpl.
      replace ((String.eqb x y || existsb (String.eqb x) seen)
               || existsb (String.eqb x) s)
        with (existsb (String.eqb x) seen
              || (String.eqb x y || existsb (String.eqb x) s))
        by (destruct (String.eqb x y), (existsb (String.eqb x) seen);
            reflexivity).
      now destruct (existsb (String.eqb x) seen
                    || (String.eqb x y || existsb (String.eqb x) s)).
Qed.

Lemma borough_options_In (df : DataFrame) (b : string) :
  In b (borough_options df) <->
  exists l : Listing, In l df /\ neighbourhood_group l = b.
Proof.
  unfold borough_options, unique.
  rewrite unique_from_In, in_map_iff. simpl. split.
  - intros [[l [Heq Hin]] _]. now exists l.
  - intros [l [Hin Heq]]. split; [ now exists l | tauto ].
Qed.

(** X1: the options of the borough multiselect are exactly the boroughs
    that occur in the table, each listed once, in the order in which the
    table first shows them: an empty table has no option, and a row added
    at the end of a table adds its borough at the end of the options when no
    earlier row has it, and changes nothing otherwise. *)
Theorem X1_borough_options (df : DataFrame) :
  NoDup (borough_options df)
  /\ (forall b : string,
        In b (borough_options df) <->
        exists l : Listing, In l df /\ neighbourhood_group l = b)
  /\ Subseq (borough_options df) (map neighbourhood_group df)
  /\ borough_options [] = []
  /\ (forall l : Listing,
        borough_options (df ++ [l])
        = if in_boroughs (map neighbourhood_group df) l
          then borough_options df
          else borough_options df ++ [neighbourhood_group l]).
Proof.
  split; [ apply unique_from_NoDup | split; [ | split; [ | split ] ] ].
  - apply borough_options_In.
  - apply unique_from_Subseq.
  - reflexivity.
  - intros l. unfold borough_options, unique, in_boroughs.
    rewrite map_app. simpl. now rewrite unique_from_snoc.
Qed.

(** X2: with the default selection of the multiselect (every borough of
    the table) the borough test passes on every row, so the filter keeps
    exactly the rows whose price is within the slider's bounds. *)
Theorem X2_default_boroughs_filter_by_price (df : DataFrame)
    (price_range : float * float) :
  filtered_df df price_range (borough_options df)
  = Ok (filter (in_price_range (fst price_range) (snd price_range)) df).
Proof.
  rewrite filtered_df_filter. f_equal. apply filter_ext_in.
  intros l Hl. unfold keep.
  assert (Hb : in_boroughs (borough_options df) l = true).
  { apply in_boroughs_In. apply borough_options_In. now exists l. }
  rewrite Hb. apply andb_true_r.
Qed.

(** X3: widening the price range or selecting more boroughs never removes
    a row: the narrower view is a subsequence of the wider one. *)
Theorem X3_filter_monotone (df : DataFrame) (lo hi lo' hi' : float)
    (boroughs boroughs' : list string) :
  (lo' <=? lo) = true -> (hi <=? hi') = true ->
  (forall b : string, In b boroughs -> In b boroughs') ->
  exists narrow wide : DataFrame,
    filtered_df df (lo, hi) boroughs = Ok narrow
    /\ filtered_df df (lo', hi') boroughs' = Ok wide
    /\ Subseq narrow wide.
Proof.
  intros Hlo Hhi Hsub. do 2 eexists.
  split; [ apply filtered_df_filter | split; [ apply filtered_df_filter | ] ].
  apply filter_Subseq_impl. intros l _. simpl. unfold keep, in_price_range.
  rewrite !andb_true_iff, !in_boroughs_In. intros [[H1 H2] H3].
  repeat split.
  - exact (F64Order.leb_trans _ _ _ Hlo H1).
  - exact (F64Order.leb_trans _ _ _ H2 Hhi).
  - now apply Hsub.
Qed.

(** X3, at the sample table: 100..200 in Manhattan against 50..300 in
    Manhattan and Brooklyn. *)
Lemma X3_filter_monotone_witness :
  exists narrow wide : DataFrame,
    filtered_df sample_table (100, 200) ["Manhattan"]%string = Ok narrow
    /\ filtered_df sample_table (50, 300) ["Manhattan"; "Brooklyn"]%string
       = Ok wide
    /\ Subseq narrow wide.
Proof.
  apply X3_filter_monotone; [ reflexivity | reflexivity | ].
  intros b. simpl. tauto.
Defined.

(** X4: filtering the filtered table again with the same bounds and
    boroughs changes nothing. *)
Theorem X4_filter_idempotent (df : DataFrame) (price_range : float * float)
    (boroughs : list string) :
  exists out : DataFrame,
    filtered_df df price_range boroughs = Ok out
    /\ filtered_df out price_range boroughs = Ok out.
Proof.
  eexists. split; [ apply filtered_df_filter | ].
  rewrite filtered_df_filter, filter_idempotent. reflexivity.
Qed.

(** ** The map tab and the value heat map *)

Lemma filtered_rows_in_range (df : DataFrame) (lo hi : float)
    (boroughs : list string) (l : Listing) :
  In l (filter (keep lo hi boroughs) df) ->
  (lo <=? price l) = true /\ (price l <=? hi) = true.
Proof.
  rewrite filter_In. unfold keep, in_price_range.
  rewrite !andb_true_iff. tauto.
Qed.



(** X6: when the lower bound of the price range is positive, no row of the
    filtered view has price 0, so no value score of the view is a quotient
    by zero. *)
Theorem X6_positive_bound_no_zero_price (df : DataFrame) (lo hi : float)
    (boroughs : list string) :
  (0 <? lo) = true ->
  exists fdf : DataFrame,
    filtered_df df (lo, hi) boroughs = Ok fdf
    /\ Forall (fun l => is_zero (price l) = false) fdf.
Proof.
  intros Hlo. eexists. split; [ apply filtered_df_filter | ].
  apply Forall_forall. intros l Hl.
  apply filtered_rows_in_range in Hl. destruct Hl as [Hl _].
  exact (F64Order.above_positive_nonzero lo (price l) Hlo Hl).
Qed.

(** X6, at the slider's default range 50..300, on a table with a free
    listing. *)
Lemma X6_positive_bound_no_zero_price_witness :
  (0 <? 50) = true /\
  exists fdf : DataFrame,
    filtered_df (free_with_reviews :: sample_table) (50, 300)
      ["Manhattan"; "Brooklyn"]%string = Ok fdf
    /\ Forall (fun l => is_zero (price l) = false) fdf.
Proof.
  split; [ reflexivity | ].
  apply X6_positive_bound_no_zero_price. reflexivity.
Defined.

Lemma value_heat_data_rows (fdf : DataFrame) :
  value_heat_data fdf
  = map (fun l => (latitude l, longitude l, computeValueScore l)) fdf.
Proof.
  unfold value_heat_data, with_value_score. rewrite value_score_rows.
  induction fdf as [| l fdf IH]; simpl; [ reflexivity | now rewrite IH ].
Qed.

(** X7: a row whose rating or review count is missing (NaN) gets the
    weight NaN in the data of the value heat map, whatever its price; the
    other rows keep their weights.  Nothing removes such rows before the
    data reaches the heat map. *)
Theorem X7_missing_rating_nan_weight (before after : DataFrame) (r : Listing) :
  Pandas.isna (review_scores_rating r) = true
  \/ Pandas.isna (number_of_reviews r) = true ->
  value_heat_data (before ++ r :: after)
  = value_heat_data before
    ++ (latitude r, longitude r, nan) :: value_heat_data after.
Proof.
  intros Hnan. rewrite !value_heat_data_rows, map_app. simpl.
  do 3 f_equal. unfold computeValueScore, score_numerator.
  destruct Hnan as [H | H].
  - destruct (review_scores_rating r) as [b | y]; [ discriminate | ].
    simpl in H.
    assert (Hmul : Pandas.mul_cell (number_of_reviews r) (Pandas.Float64 y)
                   = Pandas.Float64
                       (Pandas.to_float64 (number_of_reviews r) * y))
      by now destruct (number_of_reviews r).
    rewrite Hmul. simpl. rewrite (F64Order.mul_nan_r _ _ H).
    apply F64Order.div_nan_l.
  - destruct (number_of_reviews r) as [a | x]; [ discriminate | ].
    simpl in H. simpl. rewrite (F64Order.mul_nan_l _ _ H).
    apply F64Order.div_nan_l.
Qed.

(** X7, at a listing without rating between two rated ones. *)
Lemma X7_missing_rating_nan_weight_witness :
  (Pandas.isna (review_scores_rating unrated) = true
   \/ Pandas.isna (number_of_reviews unrated) = true)
  /\ value_heat_data ([value_example] ++ unrated :: [near_liberty])
     = value_heat_data [value_example]
       ++ (latitude unrated, longitude unrated, nan)
          :: value_heat_data [near_liberty].
Proof.
  split; [ left; reflexivity | ].
  apply X7_missing_rating_nan_weight. left. reflexivity.
Defined.

(** ** The landmark tab *)

Lemma Subseq_map {A B : Type} (f : A -> B) (l1 l2 : list A) :
  Subseq l1 l2 -> Subseq (map f l1) (map f l2).
Proof.
  induction 1; simpl; now constructor.
Qed.

Lemma map_fst_gdf (fdf : DataFrame) : map fst (gdf fdf) = fdf.
Proof.
  rewrite gdf_rows, map_map. simpl. apply map_id.
Qed.

(** X8: the landmark tables are computed from the filtered view: for any
    buffer region, the listings reported around a landmark form a
    subsequence of the filtered rows, each of them passes the price and
    borough filter, and the count shown is at most the number of filtered
    rows, itself at most the size of the table. *)
Theorem X8_landmark_hits_pass_filter (df : DataFrame) (lo hi : float)
    (boroughs : list string) (region : Geos.Polygon) :
  exists (fdf : DataFrame) (hits : GeoDataFrame),
    filtered_df df (lo, hi) boroughs = Ok fdf
    /\ spatial_query (gdf fdf) region = Ok hits
    /\ Subseq (map fst hits) fdf
    /\ (forall r, In r hits ->
          In (fst r) df /\ keep lo hi boroughs (fst r) = true)
    /\ (listings_in_area hits <= List.length fdf <= List.length df)%nat
    /\ List.length (area_table hits) = listings_in_area hits.
Proof.
  do 2 eexists.
  split; [ apply filtered_df_filter | split; [ apply spatial_query_filter | ] ].
  set (fdf := filter (keep (fst (lo, hi)) (snd (lo, hi)) boroughs) df).
  set (hits := filter (fun r => Geos.within (snd r) region) (gdf fdf)).
  assert (Hsub : Subseq (map fst hits) fdf).
  { pose proof (Subseq_map fst hits (gdf fdf) (filter_Subseq _ _)) as H.
    now rewrite map_fst_gdf in H. }
  split; [ exact Hsub | split; [ | split ] ].
  - intros r Hr. apply (in_map fst) in Hr.
    apply (Subseq_In _ _ _ Hsub) in Hr. apply filter_In in Hr. exact Hr.
  - unfold listings_in_area. split.
    + apply Subseq_length in Hsub. now rewrite length_map in Hsub.
    + apply Subseq_length, filter_Subseq.
  - unfold area_table, listings_in_area. apply length_map.
Qed.

(** Rings that lie entirely to one side of the test point are not crossed
    by its ray. *)










(** X10: the Central Park ring of the script is not a simple polygon: its
    first edge, from (-73.9730, 40.7642) to (-73.9587, 40.8005), and its
    third edge, from (-73.9814, 40.7969) to (-73.9492, 40.7642), cross. *)
Theorem X10_central_park_ring_crosses_itself :
  List.length central_park = 5%nat
  /\ nth 0 central_park (0, 0) = nth 4 central_park (0, 0)
  /\ segments_cross (nth 0 central_park (0, 0)) (nth 1 central_park (0, 0))
       (nth 2 central_park (0, 0)) (nth 3 central_park (0, 0)) = true.
Proof.
  vm_compute. repeat split.
Qed.

(** ** The transit tab: reading the subway routes *)

Module SubwayFacts.

Import Subway.

Lemma foldM_app {A B : Type} (f : B -> A -> Outcome B) (l1 l2 : list A) :
  forall acc : B,
    foldM f (l1 ++ l2) acc = bind (foldM f l1 acc) (fun a => foldM f l2 a).
Proof.
  induction l1 as [| a l1 IH]; intros acc; simpl; [ reflexivity | ].
  destruct (f acc a) as [acc' | e]; simpl; [ apply IH | reflexivity ].
Qed.

Lemma mapM_length {A B : Type} (f : A -> Outcome B) (l : list A) :
  forall l' : list B, mapM f l = Returns l' -> List.length l' = List.length l.
Proof.
  induction l as [| a l IH]; simpl; intros l' H.
  - inversion H. reflexivity.
  - destruct (f a) as [b | e]; simpl in H; [ | discriminate ].
    destruct (mapM f l) as [bs | e]; simpl in H; [ | discriminate ].
    inversion H. simpl. f_equal. now apply IH.
Qed.

Lemma index_position (p : list float) (i : nat) :
  getitem_index (encode_position p) i
  = match nth_error p i with
    | Some x => Returns (JNum x)
    | None => Raises IndexError
    end.
Proof.
  unfold encode_position, getitem_index. rewrite nth_error_map.
  now destruct (nth_error p i).
Qed.

Lemma mapM_index_ok (i : nat) (ps : list (list float)) :
  Forall (fun p => (i < List.length p)%nat) ps ->
  mapM (fun c => getitem_index c i) (map encode_position ps)
  = Returns (map (fun p => JNum (nth i p 0)) ps).
Proof.
  induction 1 as [| p ps Hp _ IH]; cbn [map mapM]; [ reflexivity | ].
  rewrite index_position, (nth_error_nth' p 0%float Hp), IH. reflexivity.
Qed.

Lemma mapM_index_short (i : nat) (ps : list (list float)) :
  Exists (fun p => (List.length p <= i)%nat) ps ->
  mapM (fun c => getitem_index c i) (map encode_position ps)
  = Raises IndexError.
Proof.
  induction ps as [| p ps IH]; intros H; [ inversion H | ].
  cbn [map mapM]. rewrite index_position.
  destruct (nth_error p i) as [x |] eqn:E; [ | reflexivity ].
  rewrite IH; [ reflexivity | ].
  inversion H as [? ? Hp | ? ? Hps]; subst; [ | exact Hps ].
  apply nth_error_None in Hp. congruence.
Qed.

Lemma line_of_positions (ps : list (list float)) :
  Forall (fun p => (2 <= List.length p)%nat) ps ->
  line_of (JArr (map encode_position ps))
  = Returns (mkLine (map (fun p => JNum (nth 0 p 0)) ps)
                    (map (fun p => JNum (nth 1 p 0)) ps)).
Proof.
  intros H. unfold line_of. simpl.
  rewrite (mapM_index_ok 0), (mapM_index_ok 1); [ reflexivity | | ];
    (eapply Forall_impl; [ | exact H ]); simpl; intros; lia.
Qed.

Lemma line_of_short_position (ps : list (list float)) :
  Exists (fun p => (List.length p < 2)%nat) ps ->
  line_of (JArr (map encode_position ps)) = Raises IndexError.
Proof.
  intros H. unfold line_of. simpl.
  destruct (Exists_dec (fun p : list float => (List.length p <= 0)%nat) ps)
    as [H0 | H0].
  { intros p. destruct (le_dec (List.length p) 0); [ now left | now right ]. }
  - now rewrite (mapM_index_short 0).
  - rewrite (mapM_index_ok 0).
    + simpl. rewrite (mapM_index_short 1); [ reflexivity | ].
      eapply Exists_impl; [ | exact H ]. simpl. intros; lia.
    + apply Forall_forall. intros p Hp.
      destruct (le_lt_dec (List.length p) 0) as [Hle | Hlt]; [ | exact Hlt ].
      exfalso. apply H0. apply Exists_exists. now exists p.
Qed.

Lemma visit_encoded (lines : list Line) (f : Feature) :
  well_formed f ->
  visit lines (encode_feature f)
  = Returns (if is_line_string f then lines ++ [expected_line f] else lines).
Proof.
  intros Hwf. unfold visit, encode_feature. simpl.
  fold (is_line_string f). destruct (is_line_string f) eqn:E; [ | reflexivity ].
  simpl. fold (encode_position).
  rewrite (line_of_positions _ (Hwf E)). reflexivity.
Qed.

Lemma foldM_encoded (fs : list Feature) :
  Forall well_formed fs ->
  forall lines : list Line,
    foldM visit (map encode_feature fs) lines
    = Returns (lines ++ map expected_line (filter is_line_string fs)).
Proof.
  induction 1 as [| f fs Hf _ IH]; intros lines; simpl.
  - now rewrite app_nil_r.
  - rewrite (visit_encoded lines f Hf). simpl. rewrite IH.
    destruct (is_line_string f); simpl; [ | reflexivity ].
    now rewrite <- app_assoc.
Qed.

Lemma subway_lines_collection (features : list Json) :
  subway_lines (feature_collection features) = foldM visit features [].
Proof.
  reflexivity.
Qed.

Lemma foldM_lengths (features : list Json) :
  forall acc lines : list Line,
    Forall (fun l => List.length (xs l) = List.length (ys l)) acc ->
    foldM visit features acc = Returns lines ->
    Forall (fun l => List.length (xs l) = List.length (ys l)) lines.
Proof.
  induction features as [| f features IH]; intros acc lines Hacc H; simpl in H.
  - inversion H. now subst.
  - destruct (visit acc f) as [acc' | e] eqn:Ev; simpl in H; [ | discriminate ].
    apply (IH acc' lines); [ | exact H ].
    unfold visit in Ev.
    destruct (getitem_key f "geometry") as [g | e]; simpl in Ev;
      [ | discriminate ].
    destruct (getitem_key g "type") as [t | e]; simpl in Ev; [ | discriminate ].
    destruct (is_LineString t); [ | inversion Ev; now subst ].
    destruct (getitem_key g "coordinates") as [coords | e]; simpl in Ev;
      [ | discriminate ].
    unfold line_of in Ev.
    destruct (iter coords) as [cs | e]; simpl in Ev; [ | discriminate ].
    destruct (mapM (fun c => getitem_index c 0) cs) as [xs0 | e] eqn:Ex;
      simpl in Ev; [ | discriminate ].
    destruct (mapM (fun c => getitem_index c 1) cs) as [ys0 | e] eqn:Ey;
      simpl in Ev; [ | discriminate ].
    inversion Ev. apply Forall_app. split; [ exact Hacc | ].
    constructor; [ | constructor ]. simpl.
    now rewrite (mapM_length _ _ _ Ex), (mapM_length _ _ _ Ey).
Qed.

End SubwayFacts.

(** X11: on a GeoJSON feature collection whose LineString positions have
    at least two numbers, the loop returns one line per LineString feature,
    in document order, with the first numbers of its positions as [xs] and
    the second numbers as [ys]; further numbers of a position (an altitude)
    and the feature's properties are ignored. *)
Theorem X11_line_strings_decoded (fs : list Subway.Feature) :
  Forall Subway.well_formed fs ->
  Subway.subway_lines
    (Subway.feature_collection (map Subway.encode_feature fs))
  = Subway.Returns
      (map Subway.expected_line (filter Subway.is_line_string fs)).
Proof.
  intros Hwf. rewrite SubwayFacts.subway_lines_collection.
  now rewrite (SubwayFacts.foldM_encoded fs Hwf []).
Qed.

(** X11, at a collection of a line, a stop and another line. *)
Lemma X11_line_strings_decoded_witness :
  Forall Subway.well_formed [broadway_line; times_square_stop; broadway_line]
  /\ Subway.subway_lines
       (Subway.feature_collection
          (map Subway.encode_feature
             [broadway_line; times_square_stop; broadway_line]))
     = Subway.Returns
         (map Subway.expected_line
            (filter Subway.is_line_string
               [broadway_line; times_square_stop; broadway_line])).
Proof.
  assert (H : Forall Subway.well_formed
                [broadway_line; times_square_stop; broadway_line]).
  { repeat constructor; intros _; simpl; repeat constructor. }
  split; [ exact H | ].
  apply X11_line_strings_decoded. exact H.
Defined.

(** X12: a feature whose geometry has a type other than the string
    ["LineString"] (a MultiLineString, a Point, ...) contributes nothing:
    the loop gives the same outcome with or without it, and does not read
    its coordinates. *)
Theorem X12_other_geometries_skipped (before after : list Subway.Json)
    (feature g t : Subway.Json) :
  Subway.getitem_key feature "geometry" = Subway.Returns g ->
  Subway.getitem_key g "type" = Subway.Returns t ->
  Subway.is_LineString t = false ->
  Subway.subway_lines (Subway.feature_collection (before ++ feature :: after))
  = Subway.subway_lines (Subway.feature_collection (before ++ after)).
Proof.
  intros Hg Ht Hls. rewrite !SubwayFacts.subway_lines_collection.
  rewrite !SubwayFacts.foldM_app.
  destruct (Subway.foldM Subway.visit before []) as [acc | e]; simpl;
    [ | reflexivity ].
  unfold Subway.visit at 1. rewrite Hg. simpl. rewrite Ht. simpl.
  rewrite Hls. reflexivity.
Qed.

(** X12, at a MultiLineString feature between two lines. *)
Lemma X12_other_geometries_skipped_witness :
  Subway.subway_lines
    (Subway.feature_collection
       ([Subway.encode_feature broadway_line]
          ++ Subway.encode_feature shuttle_tracks
          :: [Subway.encode_feature broadway_line]))
  = Subway.subway_lines
      (Subway.feature_collection
         ([Subway.encode_feature broadway_line]
            ++ [Subway.encode_feature broadway_line])).
Proof.
  eapply X12_other_geometries_skipped; reflexivity.
Defined.

(** X13: a feature whose geometry is [null], which GeoJSON allows for a
    feature without location, makes the loop raise TypeError: no line is
    produced, whatever comes before (if well formed) or after it. *)
Theorem X13_null_geometry_raises (fs : list Subway.Feature)
    (rest : list Subway.Json) :
  Forall Subway.well_formed fs ->
  Subway.subway_lines
    (Subway.feature_collection
       (map Subway.encode_feature fs ++ Subway.unlocated_feature :: rest))
  = Subway.Raises Subway.TypeError.
Proof.
  intros Hwf. rewrite SubwayFacts.subway_lines_collection.
  rewrite SubwayFacts.foldM_app, (SubwayFacts.foldM_encoded fs Hwf []).
  reflexivity.
Qed.

(** X13, at an unlocated feature after one line. *)
Lemma X13_null_geometry_raises_witness :
  Forall Subway.well_formed [broadway_line]
  /\ Subway.subway_lines
       (Subway.feature_collection
          (map Subway.encode_feature [broadway_line]
             ++ Subway.unlocated_feature
             :: [Subway.encode_feature broadway_line]))
     = Subway.Raises Subway.TypeError.
Proof.
  assert (H : Forall Subway.well_formed [broadway_line]).
  { repeat constructor; intros _; simpl; repeat constructor. }
  split; [ exact H | ].
  apply X13_null_geometry_raises. exact H.
Defined.

(** X14: whenever the loop returns, whatever value the routes are, every
    line has as many [xs] as [ys], so that they pair up into points. *)
Theorem X14_xs_ys_same_length (subway_routes : Subway.Json)
    (lines : list Subway.Line) :
  Subway.subway_lines subway_routes = Subway.Returns lines ->
  Forall (fun l => List.length (Subway.xs l) = List.length (Subway.ys l)) lines.
Proof.
  unfold Subway.subway_lines. intros H.
  destruct (Subway.getitem_key subway_routes "features") as [fs | e];
    simpl in H; [ | discriminate ].
  destruct (Subway.iter fs) as [features | e]; simpl in H; [ | discriminate ].
  apply (SubwayFacts.foldM_lengths features [] lines); [ constructor | exact H ].
Qed.

(** X14, at a collection with one line. *)
Lemma X14_xs_ys_same_length_witness :
  Forall (fun l => List.length (Subway.xs l) = List.length (Subway.ys l))
         [Subway.expected_line broadway_line].
Proof.
  apply (X14_xs_ys_same_length
           (Subway.feature_collection [Subway.encode_feature broadway_line])).
  reflexivity.
Defined.

(** X15: a LineString with a position of fewer than two numbers makes the
    loop raise IndexError, whatever follows it. *)
Theorem X15_short_position_raises (fs : list Subway.Feature)
    (f : Subway.Feature) (rest : list Subway.Json) :
  Forall Subway.well_formed fs ->
  Subway.is_line_string f = true ->
  Exists (fun p => (List.length p < 2)%nat) (Subway.positions f) ->
  Subway.subway_lines
    (Subway.feature_collection
       (map Subway.encode_feature fs ++ Subway.encode_feature f :: rest))
  = Subway.Raises Subway.IndexError.
Proof.
  intros Hwf Hls Hshort. rewrite SubwayFacts.subway_lines_collection.
  rewrite SubwayFacts.foldM_app, (SubwayFacts.foldM_encoded fs Hwf []).
  simpl. unfold Subway.visit at 1, Subway.encode_feature. simpl.
  fold (Subway.is_line_string f). rewrite Hls. simpl.
  fold Subway.encode_position.
  rewrite (SubwayFacts.line_of_short_position _ Hshort). reflexivity.
Qed.

(** X15, at a line whose second position has a single number. *)
Lemma X15_short_position_raises_witness :
  Forall Subway.well_formed [broadway_line]
  /\ Subway.is_line_string stub_line = true
  /\ Exists (fun p => (List.length p < 2)%nat) (Subway.positions stub_line)
  /\ Subway.subway_lines
       (Subway.feature_collection
          (map Subway.encode_feature [broadway_line]
             ++ Subway.encode_feature stub_line
             :: [Subway.encode_feature broadway_line]))
     = Subway.Raises Subway.IndexError.
Proof.
  assert (H : Forall Subway.well_formed [broadway_line]).
  { repeat constructor; intros _; simpl; repeat constructor. }
  assert (Hs : Exists (fun p => (List.length p < 2)%nat)
                 (Subway.positions stub_line)).
  { apply Exists_cons_tl, Exists_cons_hd. simpl. lia. }
  split; [ exact H | split; [ reflexivity | split; [ exact Hs | ] ] ].
  apply X15_short_position_raises; [ exact H | reflexivity | exact Hs ].
Defined.

(** X16: every weight of the price heat map of the map tab lies within the
    selected price range, so it is never NaN (unlike the weights of the
    value heat map), and the data has one point per filtered row. *)
Theorem X16_price_heat_weights_in_range (df : DataFrame) (lo hi : float)
    (boroughs : list string) :
  exists fdf : DataFrame,
    filtered_df df (lo, hi) boroughs = Ok fdf
    /\ List.length (heat_data fdf) = List.length fdf
    /\ Forall (fun point => (lo <=? snd point) = true
                            /\ (snd point <=? hi) = true
                            /\ is_nan (snd point) = false) (heat_data fdf).
Proof.
  eexists. split; [ apply filtered_df_filter | split ].
  - apply length_map.
  - unfold heat_data. apply Forall_map, Forall_forall. intros l Hl.
    apply filtered_rows_in_range in Hl. destruct Hl as [H1 H2]. simpl.
    repeat split; [ exact H1 | exact H2 | ].
    destruct (is_nan (price l)) eqn:E; [ | reflexivity ].
    pose proof (F64.leb_nan_r lo _ E) as Hn. simpl in H1. congruence.
Qed.
